(** * RpgTracker: quest rewards, inventory stacking and the combat page

    A shallow embedding of the rules that live in
    - [src/contexts/GameContext.tsx] ([completeQuest], [addItem],
      [removeItem], [equipItem], [unequipItem], [buyItem], [sellItem],
      [addQuest], [deleteQuest], [loadGameData]),
    - [src/contexts/AuthContext.tsx] ([updateUser]),
    - [src/pages/Combat.tsx] ([initializeCombat], [loadPlayerSkills],
      [handleAttack], [handleSkillUse], [monsterAttack], [handleRun],
      [handleGoBack], [addToCombatLog]),
    - [src/lib/questAPI] ([completeQuest]; the answers of its other calls
      are taken from the environment),
    followed by the properties the specification states about them and by
    further properties read off the code.

    Conventions of the embedding.
    - JavaScript numbers that the database declares as [integer] are [Z];
      the one place where the code leaves the integers
      ([strength * 1.5], [defense / 2]) is computed in [Q] and brought back
      with [Qfloor], as [Math.floor] does.
    - An optional field ([quantity?], [skillPoints?], [items?]) is an
      [option]; the JavaScript idioms [x || d] and [if (x)] on such a field
      are [or_default] and [truthy].
    - React state is a record; a handler maps the state of the render it was
      created in to the next state. Store round-trips may throw: their
      outcome is read from an environment [Env], and a computation that may
      throw after it has already changed the state is a [Task]. *)

From Stdlib Require Import ZArith QArith Qround Lia.
From stdpp Require Import base option list strings gmap pretty.

Close Scope Q_scope.
Open Scope Z_scope.

(** ** JavaScript idioms on optional numbers *)

(** [if (x)] for [x : number | undefined]: absent and [0] are falsy. *)
Definition truthy (x : option Z) : bool :=
  match x with
  | Some n => negb (n =? 0)
  | None => false
  end.

(** [x || d] for [x : number | undefined]. *)
Definition or_default (x : option Z) (d : Z) : Z :=
  if truthy x then default d x else d.

(** ** Entities ([src/types], read off their uses and the SQL schema) *)

Module Item.
Record t := mk {
  id : string;
  name : string;
  value : Z;
  quantity : option Z;
  isEquipped : option bool;
}.

(** [{ ...i, quantity: q }] *)
Definition with_quantity (q : Z) (i : t) : t :=
  {| id := id i; name := name i; value := value i;
     quantity := Some q; isEquipped := isEquipped i |}.
End Item.

Module Stats.
Record t := mk {
  strength : Z;
  dexterity : Z;
  intelligence : Z;
  availablePoints : Z;
}.

(** [{ ...stats, availablePoints: n }] *)
Definition with_availablePoints (n : Z) (s : t) : t :=
  {| strength := strength s; dexterity := dexterity s;
     intelligence := intelligence s; availablePoints := n |}.
End Stats.

Module Vitals.
Record t := mk {
  currentHP : Z;
  maxHP : Z;
  currentMP : Z;
  maxMP : Z;
}.
End Vitals.

Module Appearance.
Record t := mk {
  face : Z;
  hairstyle : Z;
  hairColor : string;
}.
End Appearance.

Module Character.
Record t := mk {
  id : string;
  name : string;
  level : Z;
  experience : Z;
  experienceToNext : Z;
  class : string;
  appearance : Appearance.t;
  stats : Stats.t;
  vitals : Vitals.t;
  gold : Z;
  skillPoints : Z;
}.
End Character.

Module User.
Record t := mk {
  id : string;
  email : string;
  displayName : string;
  registrationDate : string;
  character : Character.t;
}.

(** [{ ...user, character: c }] *)
Definition with_character (c : Character.t) (u : t) : t :=
  {| id := id u; email := email u; displayName := displayName u;
     registrationDate := registrationDate u; character := c |}.
End User.

Module Rewards.
Record t := mk {
  experience : Z;
  gold : Z;
  skillPoints : option Z;
  items : option (list Item.t);
}.
End Rewards.

Module Quest.
Record t := mk {
  id : string;
  title : string;
  rewards : Rewards.t;
  isCompleted : bool;
  isActive : bool;
  progress : Z;
  maxProgress : Z;
}.
End Quest.

Module Monster.
Record t := mk {
  id : string;
  name : string;
  hp : Z;
  attack : Z;
  defense : Z;
  exp_reward : Z;
  gold_reward : Z;
}.
End Monster.

Module Skill.
Record t := mk {
  id : string;
  name : string;
  mana_cost : Z;
  damage : Z;
  required_class : string;
}.

#[global] Instance eq_dec : EqDecision t.
Proof. solve_decision. Defined.
End Skill.

(** ** The Supabase client ([src/lib/supabase.ts], line 10) *)

Module Supabase.

(** [supabase.raw]. [questAPI.completeQuest] calls it, but the client that
    [createClient] of supabase-js returns has no such member: the property
    is [undefined], and calling it is a [TypeError]. *)
Definition raw : option (string -> string) := None.

End Supabase.

(** ** The providers: quest completion and the inventory *)

Module GameContext.

(** What the two providers hold in React state, and what sits behind them:
    the [characters] table (one row per user id) and [localStorage]
    (one inventory per key). [effect_due] says that the [user] cell has been
    set since the game provider's effect on [user] last ran: every
    [setUser] stores a new object, so the effect is due after each. *)
Record World := mkWorld {
  user : option User.t;
  quests : list Quest.t;
  inventory : list Item.t;
  characters : gmap string Character.t;
  localStorage : gmap string (list Item.t);
  effect_due : bool;
}.

Definition setUser (u : User.t) (w : World) : World :=
  {| user := Some u; quests := quests w; inventory := inventory w;
     characters := characters w; localStorage := localStorage w;
     effect_due := true |}.

Definition setQuests (f : list Quest.t -> list Quest.t) (w : World) : World :=
  {| user := user w; quests := f (quests w); inventory := inventory w;
     characters := characters w; localStorage := localStorage w;
     effect_due := effect_due w |}.

Definition setInventory (l : list Item.t) (w : World) : World :=
  {| user := user w; quests := quests w; inventory := l;
     characters := characters w; localStorage := localStorage w;
     effect_due := effect_due w |}.

Definition write_character (uid : string) (c : Character.t) (w : World) : World :=
  {| user := user w; quests := quests w; inventory := inventory w;
     characters := <[uid := c]> (characters w);
     localStorage := localStorage w; effect_due := effect_due w |}.

Definition write_localStorage (key : string) (l : list Item.t) (w : World) : World :=
  {| user := user w; quests := quests w; inventory := inventory w;
     characters := characters w;
     localStorage := <[key := l]> (localStorage w);
     effect_due := effect_due w |}.

(** The effect has run. *)
Definition effect_done (w : World) : World :=
  {| user := user w; quests := quests w; inventory := inventory w;
     characters := characters w; localStorage := localStorage w;
     effect_due := false |}.

(** The answers of the stores to the round-trips of one call, [None] and
    [false] standing for a store error, which the API functions throw on.
    [quests_update] is the row the [quests] table returns to the update of
    [questAPI.completeQuest], [getUserQuests] the rows it returns to the
    select of [questAPI.getUserQuests], mapped to quests.
    [userAPI.updateCharacter] throws on a store error,
    [localStorage.setItem] throws when the write is refused. *)
Record Env := mkEnv {
  quests_update : string -> option Quest.t;
  getUserQuests : string -> option (list Quest.t);
  updateCharacter_ok : bool;
  setItem_ok : bool;
}.

Inductive Error :=
  | TypeError
  | QuestStoreError
  | CharacterStoreError
  | LocalStorageError.

Inductive Outcome (A : Type) :=
  | Returned (a : A)
  | Thrown (e : Error).
Arguments Returned {A} a.
Arguments Thrown {A} e.

(** A computation that changes the world and then returns or throws; the
    changes made before a throw stay. *)
Definition Task (A : Type) : Type := World -> World * Outcome A.

Definition ret {A} (a : A) : Task A := fun w => (w, Returned a).

Definition throw {A} (e : Error) : Task A := fun w => (w, Thrown e).

Definition bind {A B} (m : Task A) (k : A -> Task B) : Task B :=
  fun w =>
    match m w with
    | (w1, Returned a) => k a w1
    | (w1, Thrown e) => (w1, Thrown e)
    end.

Definition modify (f : World -> World) : Task unit :=
  fun w => (f w, Returned tt).

Declare Scope task_scope.
Delimit Scope task_scope with task.
Notation "x <- m ;; k" := (bind m (fun x => k))
  (at level 100, m at next level, right associativity) : task_scope.
Notation "m ;; k" := (bind m (fun _ => k))
  (at level 100, right associativity) : task_scope.

Section Providers.

Variable env : Env.

(** *** AuthContext.updateUser

    The callers pass [{ character: c }] with every field of the
    character present, so the [displayName] branch is skipped, every
    column is sent, and [{ ...user.character, ...c }] is [c]. [u] is the
    [user] of the render the caller runs in. *)
Definition updateUser (u : option User.t) (c : Character.t) : Task unit :=
  match u with
  | None => ret tt
  | Some u =>
      (if updateCharacter_ok env
       then modify (write_character (User.id u) c)
       else throw CharacterStoreError) ;;
      modify (setUser (User.with_character c u))
  end%task.

(** *** GameContext.saveInventoryData *)
Definition saveInventoryData (u : option User.t) (data : list Item.t) : Task unit :=
  match u with
  | None => ret tt
  | Some u =>
      if setItem_ok env
      then modify (write_localStorage ("inventory_" +:+ User.id u) data)
      else throw LocalStorageError
  end.

(** *** questAPI.completeQuest ([src/lib/questAPI], which the sources carry
    after [Combat.tsx], lines 518-547)

    The object handed to [update] is built first, and building it calls
    [supabase.raw('max_progress')]: the call throws before anything is
    sent. What follows is what the function goes on to do with a client
    that had the member. *)
Definition questAPI_completeQuest (questId : string) : Task Quest.t :=
  (_ <- match Supabase.raw with
        | Some raw => ret (raw "max_progress")
        | None => throw TypeError
        end ;;
   match quests_update env questId with
   | Some data => ret data
   | None => throw QuestStoreError
   end)%task.

(** *** GameContext.completeQuest, lines 126-153: the reward arithmetic *)
Definition awardRewards (c : Character.t) (r : Rewards.t) : Character.t :=
  let newExp := Character.experience c + Rewards.experience r in
  let newGold := Character.gold c + Rewards.gold r in
  let newLevel := Character.level c in
  let newExpToNext := Character.experienceToNext c in
  let newSkillPoints :=
    Character.skillPoints c + or_default (Rewards.skillPoints r) 0 in
  let newAvailablePoints := Stats.availablePoints (Character.stats c) in
  let '(newLevel, newExpToNext, newAvailablePoints) :=
    if newExp >=? Character.experienceToNext c
    then (newLevel + 1, (newLevel + 1) * 100, newAvailablePoints + 3)
    else (newLevel, newExpToNext, newAvailablePoints) in
  {| Character.id := Character.id c;
     Character.name := Character.name c;
     Character.level := newLevel;
     Character.experience := newExp;
     Character.experienceToNext := newExpToNext;
     Character.class := Character.class c;
     Character.appearance := Character.appearance c;
     Character.stats :=
       Stats.with_availablePoints newAvailablePoints (Character.stats c);
     Character.vitals := Character.vitals c;
     Character.gold := newGold;
     Character.skillPoints := newSkillPoints |}.

(** *** GameContext.completeQuest

    [user], [quests] and [inventory] are the values of the render the
    handler was created in; the [catch] only logs and rethrows. *)
Definition completeQuest (questId : string) : Task unit :=
  fun w =>
    let user := user w in
    let quests := quests w in
    let inventory := inventory w in
    match user with
    | None => ret tt w
    | Some u =>
        match list_find (fun q => Quest.id q = questId) quests with
        | None => ret tt w
        | Some (_, quest) =>
            if Quest.isCompleted quest then ret tt w
            else
              (completedQuest <- questAPI_completeQuest questId ;;
               modify (setQuests (fmap (fun q =>
                 if decide (Quest.id q = questId) then completedQuest else q))) ;;
               updateUser user
                 (awardRewards (User.character u) (Quest.rewards quest)) ;;
               match Rewards.items (Quest.rewards quest) with
               | Some items =>
                   let newItems := inventory ++ items in
                   modify (setInventory newItems) ;;
                   saveInventoryData user newItems
               | None => ret tt
               end)%task w
        end
    end.

(** *** GameContext.addItem *)
Definition updatedInventory (inventory : list Item.t) (item : Item.t) : list Item.t :=
  let existingItemIndex :=
    fst <$> list_find (fun i => Item.id i = Item.id item) inventory in
  match existingItemIndex with
  | Some existingItemIndex =>
      if truthy (Item.quantity item)
      then
        imap (fun index i =>
                if decide (index = existingItemIndex)
                then Item.with_quantity
                       (or_default (Item.quantity i) 0
                        + or_default (Item.quantity item) 1) i
                else i)
             inventory
      else inventory ++ [item]
  | None => inventory ++ [item]
  end.

Definition addItem (item : Item.t) : Task unit :=
  fun w =>
    let updatedInventory := updatedInventory (inventory w) item in
    (modify (setInventory updatedInventory) ;;
     saveInventoryData (user w) updatedInventory)%task w.

(** *** GameContext.removeItem *)

(** The [reduce] of [removeItem]: an entry with the id keeps what is left of
    its stock ([quantity || 1] less the amount) when that is positive and is
    dropped otherwise; any other entry is pushed as it is. *)
Definition afterRemoval (inventory : list Item.t) (itemId : string)
  (quantity : Z) : list Item.t :=
  foldl (fun acc item =>
           if decide (Item.id item = itemId)
           then
             let newQuantity := or_default (Item.quantity item) 1 - quantity in
             if 0 <? newQuantity
             then acc ++ [Item.with_quantity newQuantity item]
             else acc
           else acc ++ [item])
        [] inventory.

(** [quantity] is the optional second argument, 1 when left out. *)
Definition removeItem (itemId : string) (quantity : option Z) : Task unit :=
  fun w =>
    let quantity := default 1 quantity in
    let updatedInventory := afterRemoval (inventory w) itemId quantity in
    (modify (setInventory updatedInventory) ;;
     saveInventoryData (user w) updatedInventory)%task w.

(** *** GameContext.equipItem, GameContext.unequipItem *)

(** [{ ...item, isEquipped: b }] *)
Definition with_isEquipped (b : bool) (item : Item.t) : Item.t :=
  {| Item.id := Item.id item; Item.name := Item.name item;
     Item.value := Item.value item; Item.quantity := Item.quantity item;
     Item.isEquipped := Some b |}.

Definition equipItem (itemId : string) : Task unit :=
  fun w =>
    let updatedInventory :=
      (fun item =>
         if decide (Item.id item = itemId) then with_isEquipped true item
         else item) <$> inventory w in
    (modify (setInventory updatedInventory) ;;
     saveInventoryData (user w) updatedInventory)%task w.

Definition unequipItem (itemId : string) : Task unit :=
  fun w =>
    let updatedInventory :=
      (fun item =>
         if decide (Item.id item = itemId) then with_isEquipped false item
         else item) <$> inventory w in
    (modify (setInventory updatedInventory) ;;
     saveInventoryData (user w) updatedInventory)%task w.

(** *** GameContext.buyItem, GameContext.sellItem *)

(** [{ ...character, gold: g }] *)
Definition with_gold (g : Z) (c : Character.t) : Character.t :=
  {| Character.id := Character.id c;
     Character.name := Character.name c;
     Character.level := Character.level c;
     Character.experience := Character.experience c;
     Character.experienceToNext := Character.experienceToNext c;
     Character.class := Character.class c;
     Character.appearance := Character.appearance c;
     Character.stats := Character.stats c;
     Character.vitals := Character.vitals c;
     Character.gold := g;
     Character.skillPoints := Character.skillPoints c |}.

(** A promise nobody awaits: what it does to the world happens, its
    rejection reaches no caller. *)
Definition detached {A} (m : Task A) (w : World) : World := (m w).1.

(** [updateUser] is called without [await]: its store call is issued and the
    rest of it runs once [buyItem] is through, so [addItem] comes first, and
    what [buyItem] returns or throws is what [addItem] lets it. *)
Definition buyItem (item : Item.t) : Task bool :=
  fun w =>
    match user w with
    | None => ret false w
    | Some u =>
        if Character.gold (User.character u) <? Item.value item
        then ret false w
        else
          let pending :=
            updateUser (user w)
              (with_gold (Character.gold (User.character u) - Item.value item)
                 (User.character u)) in
          let '(w1, outcome) := (addItem item ;; ret true)%task w in
          (detached pending w1, outcome)
    end.

(** As in [buyItem], the [updateUser] is not awaited and [removeItem] runs
    before it resumes. *)
Definition sellItem (itemId : string) : Task bool :=
  fun w =>
    match list_find (fun i => Item.id i = itemId) (inventory w), user w with
    | Some (_, item), Some u =>
        let sellPrice := Item.value item / 2 in
        let pending :=
          updateUser (user w)
            (with_gold (Character.gold (User.character u) + sellPrice)
               (User.character u)) in
        let '(w1, outcome) := (removeItem itemId (Some 1) ;; ret true)%task w in
        (detached pending w1, outcome)
    | _, _ => ret false w
    end.

(** *** GameContext.addQuest, GameContext.deleteQuest

    [created] is what [questAPI.createQuest(user.id, questData)] answers and
    [deleted] whether [questAPI.deleteQuest(questId)] went through; [None]
    and [false] stand for a throw, which is logged and thrown on. *)
Definition addQuest (created : option Quest.t) : Task unit :=
  fun w =>
    match user w with
    | None => ret tt w
    | Some _ =>
        (newQuest <-
           match created with
           | Some q => ret q
           | None => throw QuestStoreError
           end ;;
         modify (setQuests (fun prev => newQuest :: prev)))%task w
    end.

Definition deleteQuest (deleted : bool) (questId : string) : Task unit :=
  fun w =>
    match user w with
    | None => ret tt w
    | Some _ =>
        ((if deleted then ret tt else throw QuestStoreError) ;;
         modify (setQuests (filter (fun q => Quest.id q <> questId))))%task w
    end.

(** *** GameContext.loadGameData

    [userQuests] is what [questAPI.getUserQuests(user.id)] answers, [None]
    for a throw, which the [catch] logs and keeps. Of the three
    [localStorage] entries the inventory is the one the state here holds;
    a key that is not there leaves the inventory alone. *)
Definition loadGameData (userQuests : option (list Quest.t)) : Task unit :=
  fun w =>
    match user w with
    | None => ret tt w
    | Some u =>
        match userQuests with
        | None => ret tt w
        | Some userQuests =>
            (modify (setQuests (fun _ => userQuests)) ;;
             match localStorage w !! ("inventory_" +:+ User.id u) with
             | Some savedInventory => modify (setInventory savedInventory)
             | None => ret tt
             end)%task w
        end
    end.

(** *** The effect on [user] (GameContext.tsx, lines 48-58)

    With a user it reloads the game data, asking the quest store for the
    user's quests; without one it clears the data. *)
Definition useEffect_user (w : World) : World :=
  match user w with
  | Some u => (loadGameData (getUserQuests env (User.id u)) w).1
  | None => setInventory [] (setQuests (fun _ => []) w)
  end.

(** A call and what follows it: once the call has returned or thrown and
    its un-awaited promises are through, React renders and runs the effect
    if the user cell was set. *)
Definition settled {A} (m : Task A) : Task A :=
  fun w =>
    let '(w1, outcome) := m w in
    (if effect_due w1 then useEffect_user (effect_done w1) else w1, outcome).

End Providers.

End GameContext.

(** ** The combat page *)

Module Combat.

Inductive MenuState := main | skills.

(** The values one render of the page closes over: the [useState] cells
    and the [user] of the auth provider. *)
Record Render := mkRender {
  user : option User.t;
  currentMonster : option Monster.t;
  playerHP : Z;
  playerMP : Z;
  monsterHP : Z;
  combatLog : list string;
  menuState : MenuState;
  playerSkills : list Skill.t;
  isLoading : bool;
}.

(** What [setTimeout] was handed: [() => monsterAttack()] keeps the
    [monsterAttack] of the render that scheduled it, hence that render's
    [currentMonster], [user] and [playerHP]. *)
Inductive Callback :=
  | call_monsterAttack (closure : Render)
  | call_navigate (path : string).

(** The mounted page: the current state cells, the clock, the pending
    timers ordered by due time, and the route navigated to, if any. *)
Record Page := mkPage {
  render : Render;
  now : Z;
  timers : list (Z * Callback);
  location : option string;
}.

(** A state setter. React drops the updates of a component that has been
    unmounted, which is what navigating away does to the page. *)
Definition setState (f : Render -> Render) (st : Page) : Page :=
  match location st with
  | None =>
      {| render := f (render st); now := now st; timers := timers st;
         location := location st |}
  | Some _ => st
  end.

Definition setMonsterHP (v : Z) (r : Render) : Render :=
  {| user := user r; currentMonster := currentMonster r;
     playerHP := playerHP r; playerMP := playerMP r; monsterHP := v;
     combatLog := combatLog r; menuState := menuState r;
     playerSkills := playerSkills r; isLoading := isLoading r |}.

Definition setPlayerHP (v : Z) (r : Render) : Render :=
  {| user := user r; currentMonster := currentMonster r;
     playerHP := v; playerMP := playerMP r; monsterHP := monsterHP r;
     combatLog := combatLog r; menuState := menuState r;
     playerSkills := playerSkills r; isLoading := isLoading r |}.

Definition setPlayerMP (v : Z) (r : Render) : Render :=
  {| user := user r; currentMonster := currentMonster r;
     playerHP := playerHP r; playerMP := v; monsterHP := monsterHP r;
     combatLog := combatLog r; menuState := menuState r;
     playerSkills := playerSkills r; isLoading := isLoading r |}.

Definition setMenuState (v : MenuState) (r : Render) : Render :=
  {| user := user r; currentMonster := currentMonster r;
     playerHP := playerHP r; playerMP := playerMP r; monsterHP := monsterHP r;
     combatLog := combatLog r; menuState := v;
     playerSkills := playerSkills r; isLoading := isLoading r |}.

Definition setPlayerSkills (v : list Skill.t) (r : Render) : Render :=
  {| user := user r; currentMonster := currentMonster r;
     playerHP := playerHP r; playerMP := playerMP r; monsterHP := monsterHP r;
     combatLog := combatLog r; menuState := menuState r;
     playerSkills := v; isLoading := isLoading r |}.

Definition setCombatLog (f : list string -> list string) (r : Render) : Render :=
  {| user := user r; currentMonster := currentMonster r;
     playerHP := playerHP r; playerMP := playerMP r; monsterHP := monsterHP r;
     combatLog := f (combatLog r); menuState := menuState r;
     playerSkills := playerSkills r; isLoading := isLoading r |}.

(** [l.slice(-n)] *)
Definition slice_last {A} (n : nat) (l : list A) : list A :=
  drop (length l - n)%nat l.

(** [setCombatLog(prev => [...prev, message].slice(-10))] *)
Definition addToCombatLog (message : string) (st : Page) : Page :=
  setState (setCombatLog (fun prev => slice_last 10 (prev ++ [message]))) st.

(** [setTimeout(cb, delay)]: the queue stays ordered by due time, and
    callbacks due at the same instant keep their order of arrival. *)
Fixpoint enqueue (due : Z) (cb : Callback) (q : list (Z * Callback))
  : list (Z * Callback) :=
  match q with
  | [] => [(due, cb)]
  | (d, c) :: q' =>
      if d <=? due then (d, c) :: enqueue due cb q' else (due, cb) :: q
  end.

Definition setTimeout (cb : Callback) (delay : Z) (st : Page) : Page :=
  {| render := render st; now := now st;
     timers := enqueue (now st + delay) cb (timers st);
     location := location st |}.

Definition navigate (path : string) (st : Page) : Page :=
  {| render := render st; now := now st; timers := timers st;
     location := Some path |}.

(** *** The three damage formulas *)

Definition attackDamage (u : User.t) (m : Monster.t) : Z :=
  let playerAttack := 10 + Stats.strength (Character.stats (User.character u)) * 2 in
  Z.max 1 (playerAttack - Monster.defense m).

Definition skillDamage (u : User.t) (skill : Skill.t) : Q :=
  let skillDamage := inject_Z (Skill.damage skill) in
  let stats := Character.stats (User.character u) in
  if decide (Skill.required_class skill = "Wizard")
  then (skillDamage + inject_Z (Stats.intelligence stats * 2))%Q
  else if decide (Skill.required_class skill = "Fighter")
  then (skillDamage + inject_Z (Stats.strength stats) * (3 # 2))%Q
  else skillDamage.

Definition castDamage (u : User.t) (skill : Skill.t) (m : Monster.t) : Z :=
  Z.max 1 (Qfloor (skillDamage u skill - inject_Z (Monster.defense m) / 2)%Q).

Definition counterDamage (u : User.t) (m : Monster.t) : Z :=
  Z.max 1 (Monster.attack m
           - (5 + Stats.dexterity (Character.stats (User.character u)))).

(** *** Handlers *)

Definition defeatedLog (m : Monster.t) (st : Page) : Page :=
  addToCombatLog
    ("You gained " +:+ pretty (Monster.exp_reward m) +:+ " EXP and "
     +:+ pretty (Monster.gold_reward m) +:+ " Gold!")
    (addToCombatLog (Monster.name m +:+ " is defeated!") st).

Definition handleAttack (st : Page) : Page :=
  let r := render st in
  match currentMonster r, user r with
  | Some m, Some u =>
      let damage := attackDamage u m in
      let newMonsterHP := Z.max 0 (monsterHP r - damage) in
      let st := setState (setMonsterHP newMonsterHP) st in
      let st :=
        addToCombatLog
          ("You attack " +:+ Monster.name m +:+ " for " +:+ pretty damage
           +:+ " damage!") st in
      if newMonsterHP <=? 0 then defeatedLog m st
      else setTimeout (call_monsterAttack r) 1000 st
  | _, _ => st
  end.

Definition handleSkillUse (skill : Skill.t) (st : Page) : Page :=
  let r := render st in
  match currentMonster r, user r with
  | Some m, Some u =>
      if playerMP r <? Skill.mana_cost skill then st
      else
        let damage := castDamage u skill m in
        let newMonsterHP := Z.max 0 (monsterHP r - damage) in
        let newPlayerMP := playerMP r - Skill.mana_cost skill in
        let st := setState (setMonsterHP newMonsterHP) st in
        let st := setState (setPlayerMP newPlayerMP) st in
        let st :=
          addToCombatLog
            ("You cast " +:+ Skill.name skill +:+ " for " +:+ pretty damage
             +:+ " damage!") st in
        let st := setState (setMenuState main) st in
        if newMonsterHP <=? 0 then defeatedLog m st
        else setTimeout (call_monsterAttack r) 1000 st
  | _, _ => st
  end.

(** [closure] is the render whose [monsterAttack] was scheduled; the
    setters act on the page as it is when the timer fires. *)
Definition monsterAttack (closure : Render) (st : Page) : Page :=
  match currentMonster closure, user closure with
  | Some m, Some u =>
      let damage := counterDamage u m in
      let newPlayerHP := Z.max 0 (playerHP closure - damage) in
      let st := setState (setPlayerHP newPlayerHP) st in
      let st :=
        addToCombatLog
          (Monster.name m +:+ " attacks you for " +:+ pretty damage
           +:+ " damage!") st in
      if newPlayerHP <=? 0 then addToCombatLog "You have been defeated!" st
      else st
  | _, _ => st
  end.

(** [loadPlayerSkills]. [unlockedSkills] is what
      [combatAPI.getPlayerUnlockedSkills(user.id)] answers: [None] when it
      throws (the error is logged and dropped), else the unlock records of
      the user, each with its joined skill when the join found one;
      [.map(us => us.skill).filter(Boolean)] keeps those found. *)
Definition loadPlayerSkills (unlockedSkills : option (list (option Skill.t)))
  (st : Page) : Page :=
  match user (render st), unlockedSkills with
  | Some _, Some unlockedSkills =>
      let skills := omap id unlockedSkills in
      setState (setPlayerSkills skills) st
  | _, _ => st
  end.

Definition handleRun (st : Page) : Page :=
  setTimeout (call_navigate "/adventure") 1500
    (addToCombatLog "You fled from battle!" st).

Definition handleGoBack (st : Page) : Page := navigate "/adventure" st.

(** *** The clock *)

Definition run (cb : Callback) (st : Page) : Page :=
  match cb with
  | call_monsterAttack closure => monsterAttack closure st
  | call_navigate path => navigate path st
  end.

(** Fire, in order, the pending callbacks that are due at [t]. No
    callback of this page schedules another one. *)
Fixpoint fire_due (t : Z) (pending : list (Z * Callback)) (st : Page) : Page :=
  match pending with
  | [] => st
  | (due, cb) :: rest =>
      if due <=? t
      then fire_due t rest
             (run cb {| render := render st; now := due; timers := rest;
                        location := location st |})
      else st
  end.

Definition elapse (ms : Z) (st : Page) : Page :=
  let st := fire_due (now st + ms) (timers st) st in
  {| render := render st; now := now st + ms; timers := timers st;
     location := location st |}.

(** *** What the page derives and offers *)

Definition isPlayerDefeated (r : Render) : bool := playerHP r <=? 0.
Definition isMonsterDefeated (r : Render) : bool := monsterHP r <=? 0.
Definition isBattleOver (r : Render) : bool :=
  isPlayerDefeated r || isMonsterDefeated r.

(** The skill buttons of the skills menu: [playerSkills.slice(0, 4)],
    each with its [disabled] flag. *)
Definition skillButtons (r : Render) : list (Skill.t * bool) :=
  (fun skill => (skill, playerMP r <? Skill.mana_cost skill))
    <$> take 4 (playerSkills r).

Inductive Action :=
  | Attack
  | OpenSkills
  | UseSkill (skill : Skill.t)
  | Back
  | Run
  | GoBack
  | Wait (ms : Z).

(** Is the control of an action on screen and enabled? *)
Definition offered (r : Render) (a : Action) : bool :=
  match a with
  | Wait _ => true
  | GoBack => negb (isLoading r)
  | _ =>
      negb (isLoading r) && bool_decide (is_Some (currentMonster r))
      && negb (isBattleOver r)
      && match a, menuState r with
         | Attack, main => true
         | OpenSkills, main => negb (length (playerSkills r) =? 0)%nat
         | Run, main => true
         | UseSkill skill, skills =>
             bool_decide ((skill, false) ∈ skillButtons r)
         | Back, skills => true
         | _, _ => false
         end
  end.

Definition handle (a : Action) (st : Page) : Page :=
  match a with
  | Attack => handleAttack st
  | OpenSkills => setState (setMenuState skills) st
  | UseSkill skill => handleSkillUse skill st
  | Back => setState (setMenuState main) st
  | Run => handleRun st
  | GoBack => handleGoBack st
  | Wait ms => elapse ms st
  end.

(** One step of a session: an action the page does not offer (or any
    click after the page is gone) does nothing. *)
Definition step (st : Page) (a : Action) : Page :=
  match a, location st with
  | Wait _, _ => handle a st
  | _, Some _ => st
  | _, None => if offered (render st) a then handle a st else st
  end.

Definition session (st : Page) (l : list Action) : Page :=
  foldl step st l.

Definition setCurrentMonster (v : option Monster.t) (r : Render) : Render :=
  {| user := user r; currentMonster := v;
     playerHP := playerHP r; playerMP := playerMP r; monsterHP := monsterHP r;
     combatLog := combatLog r; menuState := menuState r;
     playerSkills := playerSkills r; isLoading := isLoading r |}.

Definition setIsLoading (v : bool) (r : Render) : Render :=
  {| user := user r; currentMonster := currentMonster r;
     playerHP := playerHP r; playerMP := playerMP r; monsterHP := monsterHP r;
     combatLog := combatLog r; menuState := menuState r;
     playerSkills := playerSkills r; isLoading := v |}.

(** The page at its first render: the defaults of the [useState] calls. *)
Definition mount (u : option User.t) : Page :=
  {| render :=
       {| user := u; currentMonster := None;
          playerHP := 100; playerMP := 50; monsterHP := 0;
          combatLog := []; menuState := main; playerSkills := [];
          isLoading := true |};
     now := 0; timers := []; location := None |}.

(** [initializeCombat]. [monster] is what [combatAPI.getRandomMonster()]
    answers, [None] for a throw. *)
Definition initializeCombat (monster : option Monster.t) (st : Page) : Page :=
  let u := user (render st) in
  let st := setState (setIsLoading true) st in
  let st :=
    match monster with
    | Some monster =>
        let st := setState (setCurrentMonster (Some monster)) st in
        let st := setState (setMonsterHP (Monster.hp monster)) st in
        let st :=
          match u with
          | Some u =>
              let vitals := Character.vitals (User.character u) in
              setState (setPlayerMP (Vitals.currentMP vitals))
                (setState (setPlayerHP (Vitals.currentHP vitals)) st)
          | None => st
          end in
        addToCombatLog ("A wild " +:+ Monster.name monster +:+ " appears!") st
    | None => addToCombatLog "Failed to load monster. Please try again." st
    end in
  setState (setIsLoading false) st.

(** The effect that runs once on mount. *)
Definition enter (u : option User.t) (monster : option Monster.t)
  (unlockedSkills : option (list (option Skill.t))) : Page :=
  loadPlayerSkills unlockedSkills (initializeCombat monster (mount u)).

End Combat.



(** ** Concrete data for the worked examples *)

Module Sample.

Definition potion (q : option Z) : Item.t :=
  {| Item.id := "potion"; Item.name := "Potion"; Item.value := 20;
     Item.quantity := q; Item.isEquipped := None |}.

Definition sword : Item.t :=
  {| Item.id := "sword"; Item.name := "Iron Sword"; Item.value := 99;
     Item.quantity := None; Item.isEquipped := Some false |}.

(** The character the schema creates for a new user, with [strength] and
    [dexterity] left as parameters. *)
Definition novice (str dex : Z) : Character.t :=
  {| Character.id := "c1"; Character.name := "";
     Character.level := 1; Character.experience := 0;
     Character.experienceToNext := 100; Character.class := "Novice";
     Character.appearance :=
       {| Appearance.face := 0; Appearance.hairstyle := 0;
          Appearance.hairColor := "#8B4513" |};
     Character.stats :=
       {| Stats.strength := str; Stats.dexterity := dex;
          Stats.intelligence := 5; Stats.availablePoints := 0 |};
     Character.vitals :=
       {| Vitals.currentHP := 100; Vitals.maxHP := 100;
          Vitals.currentMP := 50; Vitals.maxMP := 50 |};
     Character.gold := 100; Character.skillPoints := 0 |}.

Definition hero (str dex : Z) : User.t :=
  {| User.id := "u1"; User.email := "hero@example.org";
     User.displayName := "hero"; User.registrationDate := "2025-06-24";
     User.character := novice str dex |}.

Definition quest (id : string) (exp : Z) (items : option (list Item.t))
  (done : bool) : Quest.t :=
{| Quest.id := id; Quest.title := "Morning run";
   Quest.rewards :=
     {| Rewards.experience := exp; Rewards.gold := 25;
        Rewards.skillPoints := None; Rewards.items := items |};
   Quest.isCompleted := done; Quest.isActive := true;
   Quest.progress := if done then 1 else 0; Quest.maxProgress := 1 |}.

Definition world : GameContext.World :=
  {| GameContext.user := Some (hero 5 5);
     GameContext.quests :=
       [quest "q1" 40 None false; quest "q2" 500 (Some [sword]) false;
        quest "q3" 40 (Some [sword]) true];
     GameContext.inventory := [potion (Some 3)];
     GameContext.characters := {[ "u1" := novice 5 5 ]};
     GameContext.localStorage := {[ "inventory_u1" := [potion (Some 3)] ]};
     GameContext.effect_due := false |}.

(** Every store answers: the update of a quest returns it marked
    completed, and the user's quests are the three of [world]. *)
Definition stores_up : GameContext.Env :=
  {| GameContext.quests_update := fun id => Some (quest id 0 None true);
     GameContext.getUserQuests := fun _ =>
       Some [quest "q1" 40 None false; quest "q2" 500 (Some [sword]) false;
             quest "q3" 40 (Some [sword]) true];
     GameContext.updateCharacter_ok := true;
     GameContext.setItem_ok := true |}.

(** As [stores_up], but [localStorage] refuses the write. *)
Definition storage_full : GameContext.Env :=
  {| GameContext.quests_update := fun id => Some (quest id 0 None true);
     GameContext.getUserQuests := fun _ =>
       Some [quest "q1" 40 None false; quest "q2" 500 (Some [sword]) false;
             quest "q3" 40 (Some [sword]) true];
     GameContext.updateCharacter_ok := true;
     GameContext.setItem_ok := false |}.

(** As [stores_up], but the [characters] table refuses the update. *)
Definition characters_down : GameContext.Env :=
  {| GameContext.quests_update := fun id => Some (quest id 0 None true);
     GameContext.getUserQuests := fun _ => Some [];
     GameContext.updateCharacter_ok := false;
     GameContext.setItem_ok := true |}.

Definition slime (hp attack defense : Z) : Monster.t :=
  {| Monster.id := "m1"; Monster.name := "Slime"; Monster.hp := hp;
     Monster.attack := attack; Monster.defense := defense;
     Monster.exp_reward := 10; Monster.gold_reward := 5 |}.

Definition fireball : Skill.t :=
  {| Skill.id := "s1"; Skill.name := "Fireball"; Skill.mana_cost := 10;
     Skill.damage := 25; Skill.required_class := "Wizard" |}.

Definition slash : Skill.t :=
  {| Skill.id := "s2"; Skill.name := "Slash"; Skill.mana_cost := 5;
     Skill.damage := 1; Skill.required_class := "Fighter" |}.

Definition meteor : Skill.t :=
  {| Skill.id := "s3"; Skill.name := "Meteor"; Skill.mana_cost := 60;
     Skill.damage := 80; Skill.required_class := "Wizard" |}.

(** The page once [initializeCombat] and [loadPlayerSkills] are through. *)
Definition encounter (u : User.t) (m : Monster.t) (known : list Skill.t)
  : Combat.Page :=
{| Combat.render :=
     {| Combat.user := Some u; Combat.currentMonster := Some m;
        Combat.playerHP := Vitals.currentHP (Character.vitals (User.character u));
        Combat.playerMP := Vitals.currentMP (Character.vitals (User.character u));
        Combat.monsterHP := Monster.hp m;
        Combat.combatLog := ["A wild " +:+ Monster.name m +:+ " appears!"];
        Combat.menuState := Combat.main;
        Combat.playerSkills := known;
        Combat.isLoading := false |};
   Combat.now := 0; Combat.timers := []; Combat.location := None |}.

End Sample.


(** * Properties *)

(** ** Optional numbers *)

Lemma or_default_zero (x : option Z) : or_default x 0 = default 0 x.
Proof.
  destruct x as [n|]; [|reflexivity].
  unfold or_default, truthy. destruct (Z.eqb_spec n 0); simpl; congruence.
Qed.

Lemma or_default_truthy (x : option Z) (d : Z) :
  truthy x = true -> exists q, x = Some q /\ q <> 0 /\ or_default x d = q.
Proof.
  unfold or_default. destruct x as [n|]; simpl; [|discriminate].
  destruct (Z.eqb_spec n 0); [discriminate|]. intros _. eauto.
Qed.

Lemma truthy_false (x : option Z) :
  truthy x = false <-> x = None \/ x = Some 0.
Proof.
  destruct x as [n|]; simpl.
  - destruct (Z.eqb_spec n 0); simpl; split; try intros [|]; subst;
      try congruence; auto.
  - split; auto.
Qed.

(** ** Quest completion *)

Section QuestCompletion.

Import GameContext.

Variable env : Env.
Variable questId : string.
Variable w : World.

Local Abbreviation lookup_quest :=
  (list_find (fun q => Quest.id q = questId) (quests w)).

(** Nobody is signed in: nothing happens. *)
Lemma completeQuest_signed_out :
  user w = None -> completeQuest env questId w = (w, Returned tt).
Proof. unfold completeQuest. intros ->. reflexivity. Qed.

(** The quest is not in the list: nothing happens. *)
Lemma completeQuest_unknown :
  lookup_quest = None -> completeQuest env questId w = (w, Returned tt).
Proof.
  unfold completeQuest. intros ->. destruct (user w); reflexivity.
Qed.

(** [questAPI.completeQuest] throws whatever the stores would answer, and
    leaves the world alone. *)
Lemma questAPI_completeQuest_throws :
  questAPI_completeQuest env questId w = (w, Thrown TypeError).
Proof. reflexivity. Qed.

(** A pending quest of the signed-in user: the call into [questAPI] throws,
    [completeQuest] logs and rethrows, and no setter and no store has been
    reached. *)
Lemma completeQuest_throws (u : User.t) (k : nat) (quest : Quest.t) :
  user w = Some u ->
  lookup_quest = Some (k, quest) ->
  Quest.isCompleted quest = false ->
  completeQuest env questId w = (w, Thrown TypeError).
Proof.
  intros Hu Hf Hp. unfold completeQuest. rewrite Hu, Hf, Hp. reflexivity.
Qed.


End QuestCompletion.

(** The arithmetic of [awardRewards], field by field. *)
Lemma awardRewards_sums (c : Character.t) (r : Rewards.t) :
  Character.experience (GameContext.awardRewards c r)
    = Character.experience c + Rewards.experience r
  /\ Character.gold (GameContext.awardRewards c r)
    = Character.gold c + Rewards.gold r
  /\ Character.skillPoints (GameContext.awardRewards c r)
    = Character.skillPoints c + default 0 (Rewards.skillPoints r).
Proof.
  unfold GameContext.awardRewards. rewrite or_default_zero.
  destruct (_ >=? _); auto.
Qed.

Lemma awardRewards_level_up (c : Character.t) (r : Rewards.t) :
  Character.experienceToNext c
    <= Character.experience c + Rewards.experience r ->
  Character.level (GameContext.awardRewards c r) = Character.level c + 1
  /\ Character.experienceToNext (GameContext.awardRewards c r)
     = (Character.level c + 1) * 100
  /\ Stats.availablePoints (Character.stats (GameContext.awardRewards c r))
     = Stats.availablePoints (Character.stats c) + 3.
Proof.
  intros H. unfold GameContext.awardRewards.
  destruct (Z.geb_spec (Character.experience c + Rewards.experience r)
              (Character.experienceToNext c)); [auto | lia].
Qed.

Lemma awardRewards_no_level_up (c : Character.t) (r : Rewards.t) :
  Character.experience c + Rewards.experience r
    < Character.experienceToNext c ->
  Character.level (GameContext.awardRewards c r) = Character.level c
  /\ Character.experienceToNext (GameContext.awardRewards c r)
     = Character.experienceToNext c
  /\ Stats.availablePoints (Character.stats (GameContext.awardRewards c r))
     = Stats.availablePoints (Character.stats c).
Proof.
  intros H. unfold GameContext.awardRewards.
  destruct (Z.geb_spec (Character.experience c + Rewards.experience r)
              (Character.experienceToNext c)); [lia | auto].
Qed.

Example one_level_per_completion :
  let c' := GameContext.awardRewards (Sample.novice 5 5)
              (Quest.rewards (Sample.quest "q2" 500 None false)) in
  Character.level c' = 2
  /\ Character.experienceToNext c' = 200
  /\ Character.experience c' = 500.
Proof. repeat split. Qed.

(** C1, where the code falls short of it. The level-up rule is written
    down in [completeQuest] (what [awardRewards] computes: one level, a
    threshold of a hundred times the new level, three points, the
    experience the plain sum), but a pending quest never gets there: the
    call into [questAPI] throws first. So a reward that reaches the
    threshold leaves the signed-in user and the character rows as they
    were, level included, and [completeQuest] throws. *)
Theorem completeQuest_grants_no_level
    (env : GameContext.Env) (questId : string) (w : GameContext.World)
    (u : User.t) (k : nat) (quest : Quest.t) :
  GameContext.user w = Some u ->
  list_find (fun q => Quest.id q = questId) (GameContext.quests w)
    = Some (k, quest) ->
  Quest.isCompleted quest = false ->
  Character.experienceToNext (User.character u)
    <= Character.experience (User.character u)
       + Rewards.experience (Quest.rewards quest) ->
  (GameContext.completeQuest env questId w).2
    = GameContext.Thrown GameContext.TypeError
  /\ GameContext.user (GameContext.completeQuest env questId w).1 = Some u
  /\ GameContext.characters (GameContext.completeQuest env questId w).1
     = GameContext.characters w
  /\ Character.level
       (GameContext.awardRewards (User.character u) (Quest.rewards quest))
     = Character.level (User.character u) + 1.
Proof.
  intros Hu Hf Hp Hup.
  rewrite (completeQuest_throws env questId w u k quest Hu Hf Hp).
  repeat split; auto.
  apply (awardRewards_level_up (User.character u) (Quest.rewards quest) Hup).
Qed.

(** Quest "q2" is worth 500 experience to a character at level 1 with 0 of
    100: the call throws and the character is still the novice. *)
Lemma completeQuest_grants_no_level_witness :
  (GameContext.completeQuest Sample.stores_up "q2" Sample.world).2
    = GameContext.Thrown GameContext.TypeError
  /\ GameContext.user
       (GameContext.completeQuest Sample.stores_up "q2" Sample.world).1
     = Some (Sample.hero 5 5)
  /\ GameContext.characters
       (GameContext.completeQuest Sample.stores_up "q2" Sample.world).1
     = GameContext.characters Sample.world
  /\ Character.level
       (GameContext.awardRewards (Sample.novice 5 5)
          (Quest.rewards (Sample.quest "q2" 500 (Some [Sample.sword]) false)))
     = 1 + 1.
Proof.
  exact (completeQuest_grants_no_level Sample.stores_up "q2" Sample.world
           (Sample.hero 5 5) 1%nat
           (Sample.quest "q2" 500 (Some [Sample.sword]) false)
           eq_refl eq_refl eq_refl ltac:(discriminate)).
Defined.

(** C2, where the code falls short of it. The sums are written down in
    [completeQuest] (what [awardRewards] computes for gold, experience and
    skill points), but for a pending quest the call into [questAPI] throws
    before them: the quest stays as it was in the list, the signed-in user
    and the character rows keep the old gold, experience and skill points,
    and nothing is added to the inventory. *)
Theorem completeQuest_grants_no_reward
    (env : GameContext.Env) (questId : string) (w : GameContext.World)
    (u : User.t) (k : nat) (quest : Quest.t) :
  GameContext.user w = Some u ->
  list_find (fun q => Quest.id q = questId) (GameContext.quests w)
    = Some (k, quest) ->
  Quest.isCompleted quest = false ->
  (GameContext.completeQuest env questId w).2
    = GameContext.Thrown GameContext.TypeError
  /\ GameContext.user (GameContext.completeQuest env questId w).1 = Some u
  /\ GameContext.characters (GameContext.completeQuest env questId w).1
     = GameContext.characters w
  /\ GameContext.quests (GameContext.completeQuest env questId w).1
     = GameContext.quests w
  /\ GameContext.inventory (GameContext.completeQuest env questId w).1
     = GameContext.inventory w
  /\ Character.gold
       (GameContext.awardRewards (User.character u) (Quest.rewards quest))
     = Character.gold (User.character u) + Rewards.gold (Quest.rewards quest).
Proof.
  intros Hu Hf Hp.
  rewrite (completeQuest_throws env questId w u k quest Hu Hf Hp).
  repeat split; auto.
  apply (awardRewards_sums (User.character u) (Quest.rewards quest)).
Qed.

(** Quest "q1" carries 25 gold: the call throws and the hero still has
    100. *)
Lemma completeQuest_grants_no_reward_witness :
  (GameContext.completeQuest Sample.stores_up "q1" Sample.world).2
    = GameContext.Thrown GameContext.TypeError
  /\ GameContext.user
       (GameContext.completeQuest Sample.stores_up "q1" Sample.world).1
     = Some (Sample.hero 5 5)
  /\ GameContext.characters
       (GameContext.completeQuest Sample.stores_up "q1" Sample.world).1
     = GameContext.characters Sample.world
  /\ GameContext.quests
       (GameContext.completeQuest Sample.stores_up "q1" Sample.world).1
     = GameContext.quests Sample.world
  /\ GameContext.inventory
       (GameContext.completeQuest Sample.stores_up "q1" Sample.world).1
     = GameContext.inventory Sample.world
  /\ Character.gold
       (GameContext.awardRewards (Sample.novice 5 5)
          (Quest.rewards (Sample.quest "q1" 40 None false)))
     = 100 + 25.
Proof.
  exact (completeQuest_grants_no_reward Sample.stores_up "q1" Sample.world
           (Sample.hero 5 5) 0%nat (Sample.quest "q1" 40 None false)
           eq_refl eq_refl eq_refl).
Defined.

(** C3. Completing a quest whose [isCompleted] flag is already set does
    nothing: no store is called, and the quests, the character, the
    inventory and both stores are as before. *)
Theorem completeQuest_already_completed
    (env : GameContext.Env) (questId : string) (w : GameContext.World)
    (k : nat) (quest : Quest.t) :
  list_find (fun q => Quest.id q = questId) (GameContext.quests w)
    = Some (k, quest) ->
  Quest.isCompleted quest = true ->
  GameContext.completeQuest env questId w = (w, GameContext.Returned tt).
Proof.
  intros Hf Hc. unfold GameContext.completeQuest.
  rewrite Hf, Hc. destruct (GameContext.user w); reflexivity.
Qed.

Lemma completeQuest_already_completed_witness :
  GameContext.completeQuest Sample.stores_up "q3" Sample.world
  = (Sample.world, GameContext.Returned tt).
Proof.
  exact (completeQuest_already_completed Sample.stores_up "q3" Sample.world
           2%nat (Sample.quest "q3" 40 (Some [Sample.sword]) true)
           eq_refl eq_refl).
Defined.


(** ** Inventory *)

Lemma imap_same {A} (g : nat -> A -> A) (l : list A) :
  (forall j x, g j x = x) -> imap g l = l.
Proof.
  revert g. induction l as [|x l IH]; intros g Hg; [reflexivity|].
  rewrite imap_cons, Hg. f_equal. apply IH. intros j y. apply Hg.
Qed.

Lemma imap_at {A} (f : A -> A) (k : nat) (l : list A) :
  imap (fun index i => if decide (index = k) then f i else i) l = alter f k l.
Proof.
  revert k. induction l as [|x l IH]; intros k; [reflexivity|].
  rewrite imap_cons. destruct k as [|k]; simpl.
  - f_equal. apply imap_same. intros j y. simpl.
    destruct (decide (S j = 0%nat)); [lia | reflexivity].
  - f_equal. etransitivity; [|exact (IH k)]. apply imap_ext. intros j y _.
    simpl. destruct (decide (j = k)), (decide (S j = S k)); try lia; reflexivity.
Qed.

Lemma alter_at {A} (f : A -> A) (k : nat) (l : list A) (x : A) :
  l !! k = Some x -> alter f k l = <[k := f x]> l.
Proof.
  revert k. induction l as [|y l IH]; intros [|k] H; simplify_eq/=; auto.
  f_equal. auto.
Qed.

Lemma addItem_inventory (env : GameContext.Env) (item : Item.t)
    (w : GameContext.World) :
  GameContext.inventory (GameContext.addItem env item w).1
  = GameContext.updatedInventory (GameContext.inventory w) item.
Proof.
  unfold GameContext.addItem, GameContext.bind, GameContext.modify,
    GameContext.saveInventoryData.
  simpl. destruct (GameContext.user w); [destruct (GameContext.setItem_ok env)|];
    reflexivity.
Qed.

(** C9, as the code has it. [addItem] merges when an entry with the same id
    exists and the incoming quantity is present and not 0: the first such
    entry gets the sum of the two quantities (an absent one counting as 0)
    and nothing else changes, so the number of entries is the same. In every
    other case (no entry with that id, no quantity, or a quantity of 0) the
    item is appended as a new entry. *)
Theorem addItem_stacks
    (env : GameContext.Env) (item : Item.t) (w : GameContext.World) :
  (forall (k : nat) (e : Item.t) (q : Z),
     list_find (fun i => Item.id i = Item.id item) (GameContext.inventory w)
       = Some (k, e) ->
     Item.quantity item = Some q -> q <> 0 ->
     GameContext.inventory (GameContext.addItem env item w).1
       = <[k := Item.with_quantity (default 0 (Item.quantity e) + q) e]>
           (GameContext.inventory w)
     /\ length (GameContext.inventory (GameContext.addItem env item w).1)
        = length (GameContext.inventory w))
  /\ (list_find (fun i => Item.id i = Item.id item) (GameContext.inventory w)
        = None
      \/ Item.quantity item = None \/ Item.quantity item = Some 0 ->
      GameContext.inventory (GameContext.addItem env item w).1
        = GameContext.inventory w ++ [item])
  /\ GameContext.updatedInventory
       [Sample.potion (Some 3)] (Sample.potion (Some 2))
     = [Sample.potion (Some 5)].
Proof.
  rewrite addItem_inventory. unfold GameContext.updatedInventory.
  split; [|split; [|reflexivity]].
  - intros k e q Hf Hq Hq0. rewrite Hf. simpl.
    assert (Ht : truthy (Item.quantity item) = true).
    { rewrite Hq. simpl. destruct (Z.eqb_spec q 0); [contradiction | reflexivity]. }
    rewrite Ht.
    destruct (or_default_truthy _ 1 Ht) as (q' & Hq' & _ & ->).
    assert (q' = q) as -> by congruence.
    apply list_find_Some in Hf as (Hk & _ & _).
    rewrite imap_at. erewrite alter_at by exact Hk.
    rewrite or_default_zero.
    split; [reflexivity | apply length_insert].
  - intros [Hf | Hq].
    + rewrite Hf. reflexivity.
    + apply truthy_false in Hq. rewrite Hq.
      destruct (list_find _ _) as [[? ?]|]; reflexivity.
Qed.

(** C9 fails as stated. The inventory holds a potion, the incoming potion
    carries a quantity, namely 0, and the item is appended instead of
    merged: two entries where the claim has one. *)
Lemma addItem_zero_quantity_appends :
  list_find (fun i => Item.id i = Item.id (Sample.potion (Some 0)))
    (GameContext.inventory Sample.world)
    = Some (0%nat, Sample.potion (Some 3))
  /\ Item.quantity (Sample.potion (Some 0)) = Some 0
  /\ GameContext.inventory
       (GameContext.addItem Sample.stores_up (Sample.potion (Some 0))
          Sample.world).1
     = [Sample.potion (Some 3); Sample.potion (Some 0)]
  /\ length (GameContext.inventory
               (GameContext.addItem Sample.stores_up (Sample.potion (Some 0))
                  Sample.world).1)
     <> length (GameContext.inventory Sample.world).
Proof. repeat split. simpl. lia. Qed.

(** ** Combat *)

Section CombatFacts.

Import Combat.

(** *** Setters, the log and the timer queue *)

Lemma setState_mounted (f : Render -> Render) (st : Page) :
  location st = None ->
  setState f st
  = {| render := f (render st); now := now st; timers := timers st;
       location := None |}.
Proof. unfold setState. intros ->. reflexivity. Qed.

Lemma setState_frame (f : Render -> Render) (st : Page) :
  now (setState f st) = now st
  /\ timers (setState f st) = timers st
  /\ location (setState f st) = location st.
Proof. unfold setState. destruct (location st) eqn:E; simpl; auto. Qed.

(** A log line changes the log and nothing else. *)
Lemma addToCombatLog_frame (message : string) (st : Page) :
  now (addToCombatLog message st) = now st
  /\ timers (addToCombatLog message st) = timers st
  /\ location (addToCombatLog message st) = location st
  /\ playerHP (render (addToCombatLog message st)) = playerHP (render st)
  /\ playerMP (render (addToCombatLog message st)) = playerMP (render st)
  /\ monsterHP (render (addToCombatLog message st)) = monsterHP (render st).
Proof.
  unfold addToCombatLog, setState.
  destruct (location st) eqn:E; simpl; rewrite ?E; auto 10.
Qed.

Lemma defeatedLog_frame (m : Monster.t) (st : Page) :
  now (defeatedLog m st) = now st
  /\ timers (defeatedLog m st) = timers st
  /\ location (defeatedLog m st) = location st
  /\ playerHP (render (defeatedLog m st)) = playerHP (render st)
  /\ playerMP (render (defeatedLog m st)) = playerMP (render st)
  /\ monsterHP (render (defeatedLog m st)) = monsterHP (render st).
Proof.
  unfold defeatedLog.
  destruct (addToCombatLog_frame
              ("You gained " +:+ pretty (Monster.exp_reward m) +:+ " EXP and "
               +:+ pretty (Monster.gold_reward m) +:+ " Gold!")
              (addToCombatLog (Monster.name m +:+ " is defeated!") st))
    as (-> & -> & -> & -> & -> & ->).
  apply addToCombatLog_frame.
Qed.

(** The log never holds more than ten lines. *)
Lemma addToCombatLog_bounded (message : string) (st : Page) :
  (length (combatLog (render st)) <= 10)%nat ->
  (length (combatLog (render (addToCombatLog message st))) <= 10)%nat.
Proof.
  unfold addToCombatLog, setState, slice_last.
  destruct (location st); simpl; [auto|]. intros _.
  rewrite length_drop, length_app. simpl. lia.
Qed.

Lemma length_enqueue (due : Z) (cb : Callback) (q : list (Z * Callback)) :
  length (enqueue due cb q) = S (length q).
Proof.
  induction q as [|[d c] q IH]; simpl; [reflexivity|].
  destruct (d <=? due); simpl; auto.
Qed.

Lemma enqueue_changes (due : Z) (cb : Callback) (q : list (Z * Callback)) :
  enqueue due cb q <> q.
Proof.
  intros E. apply (f_equal length) in E. rewrite length_enqueue in E. lia.
Qed.

(** Scheduling keeps every timer that was pending. *)
Lemma enqueue_keeps (due : Z) (cb : Callback) (q : list (Z * Callback))
    (x : Z * Callback) :
  x ∈ q -> x ∈ enqueue due cb q.
Proof.
  induction q as [|[d c] q IH]; simpl; intros Hx.
  - inversion Hx.
  - destruct (d <=? due).
    + apply elem_of_cons in Hx as [->|Hx]; [left | right; auto].
    + right. exact Hx.
Qed.

(** *** The player's two strikes *)

(** What an accepted attack does to a mounted page. *)
Lemma handleAttack_accepted (st : Page) (m : Monster.t) (u : User.t) :
  location st = None ->
  currentMonster (render st) = Some m ->
  user (render st) = Some u ->
  monsterHP (render (handleAttack st))
    = Z.max 0 (monsterHP (render st) - attackDamage u m)
  /\ playerHP (render (handleAttack st)) = playerHP (render st)
  /\ playerMP (render (handleAttack st)) = playerMP (render st)
  /\ timers (handleAttack st)
     = (if Z.max 0 (monsterHP (render st) - attackDamage u m) <=? 0
        then timers st
        else enqueue (now st + 1000) (call_monsterAttack (render st))
               (timers st)).
Proof.
  intros Hl Hm Hu. unfold handleAttack. rewrite Hm, Hu.
  set (hp' := Z.max 0 _). set (msg := (_ +:+ _)).
  assert (Hs : monsterHP (render (setState (setMonsterHP hp') st)) = hp'
               /\ playerHP (render (setState (setMonsterHP hp') st))
                  = playerHP (render st)
               /\ playerMP (render (setState (setMonsterHP hp') st))
                  = playerMP (render st)).
  { rewrite setState_mounted by exact Hl. auto. }
  destruct Hs as (Hs1 & Hs2 & Hs3).
  destruct (setState_frame (setMonsterHP hp') st) as (Hn & Ht & _).
  destruct (addToCombatLog_frame msg (setState (setMonsterHP hp') st))
    as (Hn' & Ht' & _ & Hp & Hq & Hr).
  destruct (hp' <=? 0).
  - destruct (defeatedLog_frame m
                (addToCombatLog msg (setState (setMonsterHP hp') st)))
      as (_ & -> & _ & -> & -> & ->).
    rewrite Hp, Hq, Hr, Ht', Ht. auto.
  - unfold setTimeout. cbn [render timers now].
    rewrite Hp, Hq, Hr, Ht', Ht, Hn', Hn. auto.
Qed.

(** What an accepted skill does to a mounted page. *)
Lemma handleSkillUse_accepted (skill : Skill.t) (st : Page)
    (m : Monster.t) (u : User.t) :
  location st = None ->
  currentMonster (render st) = Some m ->
  user (render st) = Some u ->
  Skill.mana_cost skill <= playerMP (render st) ->
  monsterHP (render (handleSkillUse skill st))
    = Z.max 0 (monsterHP (render st) - castDamage u skill m)
  /\ playerHP (render (handleSkillUse skill st)) = playerHP (render st)
  /\ playerMP (render (handleSkillUse skill st))
     = playerMP (render st) - Skill.mana_cost skill
  /\ timers (handleSkillUse skill st)
     = (if Z.max 0 (monsterHP (render st) - castDamage u skill m) <=? 0
        then timers st
        else enqueue (now st + 1000) (call_monsterAttack (render st))
               (timers st)).
Proof.
  intros Hl Hm Hu Hmp. unfold handleSkillUse. rewrite Hm, Hu.
  destruct (Z.ltb_spec (playerMP (render st)) (Skill.mana_cost skill)); [lia|].
  set (hp' := Z.max 0 _). set (mp' := playerMP (render st) - _).
  set (msg := (_ +:+ _)).
  set (st1 := setState (setPlayerMP mp') (setState (setMonsterHP hp') st)).
  assert (Hs : monsterHP (render st1) = hp'
               /\ playerHP (render st1) = playerHP (render st)
               /\ playerMP (render st1) = mp'
               /\ now st1 = now st /\ timers st1 = timers st
               /\ location st1 = None).
  { unfold st1. rewrite (setState_mounted _ st) by exact Hl.
    rewrite setState_mounted by reflexivity. simpl. auto 10. }
  destruct Hs as (Hs1 & Hs2 & Hs3 & Hn & Ht & Hl1).
  destruct (addToCombatLog_frame msg st1) as (Hn' & Ht' & Hl' & Hp & Hq & Hr).
  set (st2 := addToCombatLog msg st1) in *.
  assert (Hs' : monsterHP (render (setState (setMenuState main) st2)) = hp'
                /\ playerHP (render (setState (setMenuState main) st2))
                   = playerHP (render st)
                /\ playerMP (render (setState (setMenuState main) st2)) = mp').
  { rewrite setState_mounted by congruence. simpl.
    rewrite Hp, Hq, Hr. auto. }
  destruct Hs' as (Hm1 & Hm2 & Hm3).
  destruct (setState_frame (setMenuState main) st2) as (Hn3 & Ht3 & _).
  destruct (hp' <=? 0).
  - destruct (defeatedLog_frame m (setState (setMenuState main) st2))
      as (_ & -> & _ & -> & -> & ->).
    rewrite Ht3, Ht', Ht. auto.
  - unfold setTimeout. cbn [render timers now].
    rewrite Ht3, Ht', Ht, Hn3, Hn', Hn. auto.
Qed.

(** The guards of the two handlers. *)
Lemma handleAttack_rejected (st : Page) :
  currentMonster (render st) = None \/ user (render st) = None ->
  handleAttack st = st.
Proof.
  unfold handleAttack. intros [-> | ->]; [|destruct (currentMonster _)];
    reflexivity.
Qed.

Lemma handleSkillUse_rejected (skill : Skill.t) (st : Page) :
  currentMonster (render st) = None \/ user (render st) = None
  \/ playerMP (render st) < Skill.mana_cost skill ->
  handleSkillUse skill st = st.
Proof.
  unfold handleSkillUse. intros [-> | [-> | H]].
  - reflexivity.
  - destruct (currentMonster _); reflexivity.
  - destruct (currentMonster (render st)), (user (render st));
      try reflexivity.
    destruct (Z.ltb_spec (playerMP (render st)) (Skill.mana_cost skill));
      [reflexivity | lia].
Qed.

(** *** The counter-attack *)

Lemma monsterAttack_fires (closure : Render) (st : Page)
    (m : Monster.t) (u : User.t) :
  currentMonster closure = Some m ->
  user closure = Some u ->
  location st = None ->
  playerHP (render (monsterAttack closure st))
    = Z.max 0 (playerHP closure - counterDamage u m)
  /\ monsterHP (render (monsterAttack closure st)) = monsterHP (render st)
  /\ timers (monsterAttack closure st) = timers st
  /\ location (monsterAttack closure st) = None.
Proof.
  intros Hm Hu Hl. unfold monsterAttack. rewrite Hm, Hu.
  set (hp' := Z.max 0 _). set (msg := (_ +:+ _)).
  assert (Hs : playerHP (render (setState (setPlayerHP hp') st)) = hp'
               /\ monsterHP (render (setState (setPlayerHP hp') st))
                  = monsterHP (render st)).
  { rewrite setState_mounted by exact Hl. auto. }
  destruct Hs as (Hs1 & Hs2).
  destruct (setState_frame (setPlayerHP hp') st) as (_ & Ht & Hl').
  destruct (addToCombatLog_frame msg (setState (setPlayerHP hp') st))
    as (_ & Ht' & Hl'' & Hp & _ & Hr).
  destruct (hp' <=? 0).
  - destruct (addToCombatLog_frame "You have been defeated!"
                (addToCombatLog msg (setState (setPlayerHP hp') st)))
      as (_ & -> & -> & -> & _ & ->).
    rewrite Hp, Hr, Ht', Ht, Hl'', Hl'. auto.
  - rewrite Hp, Hr, Ht', Ht, Hl'', Hl'. auto.
Qed.

Lemma monsterAttack_rejected (closure : Render) (st : Page) :
  currentMonster closure = None \/ user closure = None ->
  monsterAttack closure st = st.
Proof.
  unfold monsterAttack. intros [-> | ->]; [|destruct (currentMonster _)];
    reflexivity.
Qed.

(** On a page that has been left, the counter-attack changes nothing. *)
Lemma monsterAttack_unmounted (closure : Render) (st : Page) :
  location st <> None -> monsterAttack closure st = st.
Proof.
  intros Hl. unfold monsterAttack, addToCombatLog, setState.
  destruct (location st) eqn:E; [|contradiction].
  destruct (currentMonster closure), (user closure); try reflexivity.
  rewrite !E. destruct (_ <=? _); rewrite ?E; reflexivity.
Qed.

End CombatFacts.

(** C5. A player action (attack or skill) that is accepted on the mounted
    page and brings [monsterHP] to 0 or below ends the battle as a victory,
    schedules no counter-attack and leaves [playerHP] alone: with no timer
    left over from before, no amount of waiting lowers it. A counter-attack
    is scheduled, one second later, exactly when the monster is still alive
    after the player's damage. *)
Theorem killing_blow_ends_exchange
    (st : Combat.Page) (m : Monster.t) (u : User.t) (skill : Skill.t)
    (h : Combat.Page -> Combat.Page) :
  Combat.location st = None ->
  Combat.currentMonster (Combat.render st) = Some m ->
  Combat.user (Combat.render st) = Some u ->
  h = Combat.handleAttack
  \/ (h = Combat.handleSkillUse skill
      /\ Skill.mana_cost skill <= Combat.playerMP (Combat.render st)) ->
  (Combat.monsterHP (Combat.render (h st)) <= 0 ->
     Combat.isMonsterDefeated (Combat.render (h st)) = true
     /\ Combat.isBattleOver (Combat.render (h st)) = true
     /\ Combat.timers (h st) = Combat.timers st
     /\ Combat.playerHP (Combat.render (h st))
        = Combat.playerHP (Combat.render st)
     /\ (Combat.timers st = [] ->
         forall ms : Z,
           Combat.playerHP (Combat.render (Combat.elapse ms (h st)))
           = Combat.playerHP (Combat.render st)))
  /\ (0 < Combat.monsterHP (Combat.render (h st)) ->
      Combat.timers (h st)
      = Combat.enqueue (Combat.now st + 1000)
          (Combat.call_monsterAttack (Combat.render st)) (Combat.timers st)).
Proof.
  intros Hl Hm Hu Hh.
  assert (exists hp',
            Combat.monsterHP (Combat.render (h st)) = hp'
            /\ Combat.playerHP (Combat.render (h st))
               = Combat.playerHP (Combat.render st)
            /\ Combat.timers (h st)
               = (if hp' <=? 0 then Combat.timers st
                  else Combat.enqueue (Combat.now st + 1000)
                         (Combat.call_monsterAttack (Combat.render st))
                         (Combat.timers st)))
    as (hp' & Hhp & Hp & Ht).
  { destruct Hh as [-> | [-> Hmp]].
    - destruct (handleAttack_accepted st m u Hl Hm Hu) as (? & ? & _ & ?).
      eauto.
    - destruct (handleSkillUse_accepted skill st m u Hl Hm Hu Hmp)
        as (? & ? & _ & ?).
      eauto. }
  rewrite Hhp. split.
  - intros Hdead.
    destruct (Z.leb_spec hp' 0) as [_|]; [|lia].
    assert (Hd : Combat.isMonsterDefeated (Combat.render (h st)) = true).
    { unfold Combat.isMonsterDefeated. rewrite Hhp. apply Z.leb_le, Hdead. }
    repeat split; auto.
    + unfold Combat.isBattleOver. rewrite Hd. apply orb_true_r.
    + intros Hnone ms. unfold Combat.elapse. rewrite Ht, Hnone. simpl.
      exact Hp.
  - intros Halive. destruct (Z.leb_spec hp' 0); [lia | exact Ht].
Qed.

(** An attack for 17 on a slime with 10 hit points. *)
Lemma killing_blow_ends_exchange_witness :
  Combat.isBattleOver
    (Combat.render
       (Combat.handleAttack
          (Sample.encounter (Sample.hero 5 5) (Sample.slime 10 12 3) [])))
    = true
  /\ Combat.timers
       (Combat.handleAttack
          (Sample.encounter (Sample.hero 5 5) (Sample.slime 10 12 3) []))
     = []
  /\ forall ms : Z,
       Combat.playerHP
         (Combat.render
            (Combat.elapse ms
               (Combat.handleAttack
                  (Sample.encounter (Sample.hero 5 5) (Sample.slime 10 12 3) []))))
       = 100.
Proof.
  destruct (killing_blow_ends_exchange
              (Sample.encounter (Sample.hero 5 5) (Sample.slime 10 12 3) [])
              (Sample.slime 10 12 3) (Sample.hero 5 5) Sample.fireball
              Combat.handleAttack eq_refl eq_refl eq_refl (or_introl eq_refl))
    as [Hkill _].
  destruct Hkill as (_ & Hover & Ht & _ & Hwait).
  - vm_compute. discriminate.
  - split; [exact Hover|]. split; [exact Ht|]. exact (Hwait eq_refl).
Defined.

Lemma damage_floor_attack (u : User.t) (m : Monster.t) :
  1 <= Combat.attackDamage u m /\ 1 <= Combat.counterDamage u m.
Proof. unfold Combat.attackDamage, Combat.counterDamage. lia. Qed.

(** C6. Each of the three damage formulas yields at least 1, and exactly 1
    whenever the raw value is 0 or negative: the basic attack
    [(10 + strength * 2) - defense], the skill
    [floor(skillDamage - defense / 2)] and the monster's counter
    [attack - (5 + dexterity)]. *)
Theorem damage_at_least_one (u : User.t) (m : Monster.t) (skill : Skill.t) :
  (1 <= Combat.attackDamage u m
   /\ (10 + Stats.strength (Character.stats (User.character u)) * 2
       - Monster.defense m <= 0 ->
       Combat.attackDamage u m = 1))
  /\ (1 <= Combat.castDamage u skill m
      /\ ((Combat.skillDamage u skill - inject_Z (Monster.defense m) / 2 <= 0)%Q ->
          Combat.castDamage u skill m = 1))
  /\ (1 <= Combat.counterDamage u m
      /\ (Monster.attack m
          - (5 + Stats.dexterity (Character.stats (User.character u))) <= 0 ->
          Combat.counterDamage u m = 1)).
Proof.
  unfold Combat.attackDamage, Combat.castDamage, Combat.counterDamage.
  repeat split; try lia.
  intros Hraw. apply Qfloor_resp_le in Hraw.
  change (Qfloor 0) with 0 in Hraw. lia.
Qed.

(** So a strike on a living monster always takes something off it. *)
Lemma handleAttack_hurts (st : Combat.Page) (m : Monster.t) (u : User.t) :
  Combat.location st = None ->
  Combat.currentMonster (Combat.render st) = Some m ->
  Combat.user (Combat.render st) = Some u ->
  0 < Combat.monsterHP (Combat.render st) ->
  Combat.monsterHP (Combat.render (Combat.handleAttack st))
  < Combat.monsterHP (Combat.render st).
Proof.
  intros Hl Hm Hu Hpos.
  destruct (handleAttack_accepted st m u Hl Hm Hu) as (-> & _).
  destruct (damage_floor_attack u m). lia.
Qed.

(** *** Which skills can be cast *)

Lemma offered_skill (r : Combat.Render) (skill : Skill.t) :
  Combat.offered r (Combat.UseSkill skill) = true ->
  skill ∈ take 4 (Combat.playerSkills r)
  /\ Skill.mana_cost skill <= Combat.playerMP r.
Proof.
  unfold Combat.offered. intros H.
  apply andb_true_iff in H as [_ H].
  destruct (Combat.menuState r); [discriminate|].
  apply bool_decide_eq_true in H. unfold Combat.skillButtons in H.
  apply list_elem_of_fmap in H as (s & Hs & Hin).
  injection Hs as -> Hmp. split; [exact Hin|].
  symmetry in Hmp. apply Z.ltb_ge in Hmp. exact Hmp.
Qed.

(** C7, as the code has it. [handleSkillUse] itself rejects a cast, as a
    no-op on the whole page, when no monster or no user is loaded or when
    [playerMP] is below the cost. It never looks at the unlocked skills: any
    skill whose cost is covered is applied. That a skill must be unlocked is
    the page's doing alone: it offers only the first four of [playerSkills]
    (the skills of the user's unlock records), each disabled while its cost
    exceeds [playerMP], and a click on anything else does nothing. *)
Theorem skill_validation (skill : Skill.t) (st : Combat.Page) :
  (Combat.currentMonster (Combat.render st) = None
   \/ Combat.user (Combat.render st) = None
   \/ Combat.playerMP (Combat.render st) < Skill.mana_cost skill ->
   Combat.handleSkillUse skill st = st)
  /\ (forall (m : Monster.t) (u : User.t),
        Combat.location st = None ->
        Combat.currentMonster (Combat.render st) = Some m ->
        Combat.user (Combat.render st) = Some u ->
        Skill.mana_cost skill <= Combat.playerMP (Combat.render st) ->
        Combat.playerMP (Combat.render (Combat.handleSkillUse skill st))
          = Combat.playerMP (Combat.render st) - Skill.mana_cost skill
        /\ Combat.monsterHP (Combat.render (Combat.handleSkillUse skill st))
           = Z.max 0 (Combat.monsterHP (Combat.render st)
                      - Combat.castDamage u skill m))
  /\ (Combat.offered (Combat.render st) (Combat.UseSkill skill) = true ->
      skill ∈ take 4 (Combat.playerSkills (Combat.render st))
      /\ Skill.mana_cost skill <= Combat.playerMP (Combat.render st))
  /\ (skill ∉ Combat.playerSkills (Combat.render st)
      \/ Combat.playerMP (Combat.render st) < Skill.mana_cost skill ->
      Combat.step st (Combat.UseSkill skill) = st)
  /\ (forall (unlocked : list (option Skill.t)) (u : User.t),
        Combat.location st = None ->
        Combat.user (Combat.render st) = Some u ->
        skill ∈ Combat.playerSkills
                  (Combat.render (Combat.loadPlayerSkills (Some unlocked) st))
        <-> Some skill ∈ unlocked).
Proof.
  split; [apply handleSkillUse_rejected|].
  split.
  { intros m u Hl Hm Hu Hmp.
    destruct (handleSkillUse_accepted skill st m u Hl Hm Hu Hmp)
      as (? & _ & ? & _).
    auto. }
  split; [apply offered_skill|].
  split.
  { intros Hno. unfold Combat.step.
    destruct (Combat.location st); [reflexivity|].
    destruct (Combat.offered (Combat.render st) (Combat.UseSkill skill)) eqn:Ho;
      [|reflexivity].
    apply offered_skill in Ho as [Hin Hmp]. exfalso.
    destruct Hno as [Hno | Hno]; [|lia].
    apply Hno. apply elem_of_take in Hin as (i & Hi & _).
    apply list_elem_of_lookup. eauto. }
  intros unlocked u Hl Hu. unfold Combat.loadPlayerSkills. rewrite Hu.
  rewrite setState_mounted by exact Hl. simpl.
  rewrite list_elem_of_omap. split.
  - intros (x & Hx & Hid). unfold id in Hid. subst x. exact Hx.
  - intros Hx. exists (Some skill). auto.
Qed.

(** C7 fails as stated. The character has no unlocked skill at all, yet a
    call of the handler for Fireball goes through: 10 mana are spent, the
    slime loses its 30 hit points and the log grows. *)
Lemma handleSkillUse_ignores_unlocks :
  let st := Sample.encounter (Sample.hero 5 5) (Sample.slime 30 12 3) [] in
  Combat.playerSkills (Combat.render st) = []
  /\ Combat.playerMP (Combat.render st) = 50
  /\ Combat.monsterHP (Combat.render st) = 30
  /\ Combat.playerMP (Combat.render (Combat.handleSkillUse Sample.fireball st))
     = 40
  /\ Combat.monsterHP (Combat.render (Combat.handleSkillUse Sample.fireball st))
     = 0
  /\ Combat.combatLog (Combat.render (Combat.handleSkillUse Sample.fireball st))
     = ["A wild Slime appears!"; "You cast Fireball for 33 damage!";
        "Slime is defeated!"; "You gained 10 EXP and 5 Gold!"].
Proof. vm_compute. repeat split. Qed.

(** Meteor costs 60 mana and the hero has 50: the handler returns the page
    as it got it, even with Meteor among the loaded skills. *)
Lemma skill_validation_witness :
  Combat.handleSkillUse Sample.meteor
    (Sample.encounter (Sample.hero 5 5) (Sample.slime 30 12 3) [Sample.meteor])
  = Sample.encounter (Sample.hero 5 5) (Sample.slime 30 12 3) [Sample.meteor].
Proof.
  destruct (skill_validation Sample.meteor
              (Sample.encounter (Sample.hero 5 5) (Sample.slime 30 12 3)
                 [Sample.meteor])) as (Hreject & _).
  apply Hreject. right. right. reflexivity.
Defined.

(** *** The delayed counter-attack *)

(** C8, as the code has it. The delayed counter-attack does not ask whether
    the encounter is still going. Its one guard is that a monster and a user
    were loaded in the render that scheduled it; on the mounted page it then
    sets [playerHP] to the scheduling render's [playerHP] less the damage,
    floored at 0, whatever [monsterHP] has become in the meantime. Fleeing
    cancels nothing: every pending timer is still pending after [handleRun].
    The counter-attack is without effect only once the page has been
    left. *)
Theorem counter_attack_unguarded (closure : Combat.Render) (st : Combat.Page) :
  (Combat.currentMonster closure = None \/ Combat.user closure = None ->
   Combat.monsterAttack closure st = st)
  /\ (forall (m : Monster.t) (u : User.t),
        Combat.currentMonster closure = Some m ->
        Combat.user closure = Some u ->
        Combat.location st = None ->
        Combat.playerHP (Combat.render (Combat.monsterAttack closure st))
        = Z.max 0 (Combat.playerHP closure - Combat.counterDamage u m))
  /\ (forall x : Z * Combat.Callback,
        x ∈ Combat.timers st -> x ∈ Combat.timers (Combat.handleRun st))
  /\ (Combat.location st <> None -> Combat.monsterAttack closure st = st).
Proof.
  split; [apply monsterAttack_rejected|].
  split.
  { intros m u Hm Hu Hl.
    destruct (monsterAttack_fires closure st m u Hm Hu Hl) as (? & _). auto. }
  split; [|apply monsterAttack_unmounted].
  intros x Hx. unfold Combat.handleRun, Combat.setTimeout. cbn [Combat.timers].
  apply enqueue_keeps.
  destruct (addToCombatLog_frame "You fled from battle!" st) as (_ & -> & _).
  exact Hx.
Qed.

(** The counter scheduled on the opening render, fired on the page where
    the slime is already dead. *)
Lemma counter_attack_unguarded_witness :
  Combat.isBattleOver
    (Combat.render
       (Combat.session
          (Sample.encounter (Sample.hero 5 5) (Sample.slime 30 12 3) [])
          [Combat.Attack; Combat.Attack]))
    = true
  /\ Combat.playerHP
       (Combat.render
          (Combat.monsterAttack
             (Combat.render
                (Sample.encounter (Sample.hero 5 5) (Sample.slime 30 12 3) []))
             (Combat.session
                (Sample.encounter (Sample.hero 5 5) (Sample.slime 30 12 3) [])
                [Combat.Attack; Combat.Attack])))
     = Z.max 0 (100 - Combat.counterDamage (Sample.hero 5 5) (Sample.slime 30 12 3)).
Proof.
  split; [reflexivity|].
  destruct (counter_attack_unguarded
              (Combat.render
                 (Sample.encounter (Sample.hero 5 5) (Sample.slime 30 12 3) []))
              (Combat.session
                 (Sample.encounter (Sample.hero 5 5) (Sample.slime 30 12 3) [])
                 [Combat.Attack; Combat.Attack]))
    as (_ & Hfires & _).
  exact (Hfires (Sample.slime 30 12 3) (Sample.hero 5 5)
           eq_refl eq_refl eq_refl).
Defined.

(** C8 fails as stated, for a flee and for a victory alike. The hero
    attacks a slime of 30 hit points for 17, which schedules the counter.
    (1) The hero runs within the second: the flee is logged, and the counter
    still lands, 100 to 98, on the page not yet left. (2) The hero attacks
    again within the second and kills the slime: the battle is over, and
    the counter of the first attack still lands. *)
Lemma counter_attack_after_the_end :
  let st := Sample.encounter (Sample.hero 5 5) (Sample.slime 30 12 3) [] in
  let fled := Combat.session st [Combat.Attack; Combat.Run] in
  let won := Combat.session st [Combat.Attack; Combat.Attack] in
  (last (Combat.combatLog (Combat.render fled)) = Some "You fled from battle!"
   /\ Combat.playerHP (Combat.render fled) = 100
   /\ Combat.location (Combat.step fled (Combat.Wait 1000)) = None
   /\ Combat.playerHP (Combat.render (Combat.step fled (Combat.Wait 1000))) = 98
   /\ last (Combat.combatLog (Combat.render (Combat.step fled (Combat.Wait 1000))))
      = Some "Slime attacks you for 2 damage!")
  /\ (Combat.monsterHP (Combat.render won) = 0
      /\ Combat.isBattleOver (Combat.render won) = true
      /\ Combat.playerHP (Combat.render won) = 100
      /\ Combat.playerHP (Combat.render (Combat.step won (Combat.Wait 1000))) = 98).
Proof. vm_compute. repeat split. Qed.

(** *** Hit points stay at or above zero *)

Section Clamp.

Import Combat.

Local Abbreviation nonneg st :=
  (0 <= monsterHP (render st) /\ 0 <= playerHP (render st)).

Lemma setMenuState_nonneg (v : MenuState) (st : Page) :
  nonneg st -> nonneg (setState (setMenuState v) st).
Proof. unfold setState. destruct (location st); simpl; auto. Qed.

Lemma handleAttack_nonneg (st : Page) :
  location st = None -> nonneg st -> nonneg (handleAttack st).
Proof.
  intros Hl [Hm Hp].
  destruct (currentMonster (render st)) as [m|] eqn:Em;
    [destruct (user (render st)) as [u|] eqn:Eu|].
  - destruct (handleAttack_accepted st m u Hl Em Eu) as (-> & -> & _). lia.
  - rewrite handleAttack_rejected by auto. auto.
  - rewrite handleAttack_rejected by auto. auto.
Qed.

Lemma handleSkillUse_nonneg (skill : Skill.t) (st : Page) :
  location st = None -> nonneg st -> nonneg (handleSkillUse skill st).
Proof.
  intros Hl [Hm Hp].
  destruct (currentMonster (render st)) as [m|] eqn:Em;
    [destruct (user (render st)) as [u|] eqn:Eu|];
    [destruct (Z.lt_ge_cases (playerMP (render st)) (Skill.mana_cost skill))| |].
  - rewrite handleSkillUse_rejected by auto. auto.
  - destruct (handleSkillUse_accepted skill st m u Hl Em Eu) as (-> & -> & _);
      lia.
  - rewrite handleSkillUse_rejected by auto. auto.
  - rewrite handleSkillUse_rejected by auto. auto.
Qed.

Lemma monsterAttack_nonneg (closure : Render) (st : Page) :
  nonneg st -> nonneg (monsterAttack closure st).
Proof.
  intros [Hm Hp].
  destruct (location st) as [path|] eqn:El.
  { rewrite monsterAttack_unmounted by congruence. auto. }
  destruct (currentMonster closure) as [m|] eqn:Em;
    [destruct (user closure) as [u|] eqn:Eu|].
  - destruct (monsterAttack_fires closure st m u Em Eu El) as (-> & -> & _).
    lia.
  - rewrite monsterAttack_rejected by auto. auto.
  - rewrite monsterAttack_rejected by auto. auto.
Qed.

Lemma run_nonneg (cb : Callback) (st : Page) : nonneg st -> nonneg (run cb st).
Proof.
  destruct cb as [closure|path]; simpl; [apply monsterAttack_nonneg | auto].
Qed.

(** By induction on the queue: each callback that fires keeps the bounds. *)
Lemma fire_due_nonneg (t : Z) (pending : list (Z * Callback)) (st : Page) :
  nonneg st -> nonneg (fire_due t pending st).
Proof.
  revert st. induction pending as [|[due cb] rest IH]; intros st H; simpl;
    [exact H|].
  destruct (due <=? t); [|exact H].
  apply IH, run_nonneg. exact H.
Qed.

Lemma step_nonneg (st : Page) (a : Action) : nonneg st -> nonneg (step st a).
Proof.
  intros H. unfold step.
  assert (Hw : forall ms, nonneg (elapse ms st)).
  { intros ms. unfold elapse. cbn [render].
    apply fire_due_nonneg. exact H. }
  destruct a; cbn [handle]; try apply Hw;
    (destruct (location st) eqn:El; [exact H|]);
    match goal with
    | |- context [if ?b then _ else _] => destruct b; [|exact H]
    end.
  - apply handleAttack_nonneg; auto.
  - apply setMenuState_nonneg; auto.
  - apply handleSkillUse_nonneg; auto.
  - apply setMenuState_nonneg; auto.
  - unfold handleRun, setTimeout. cbn [render].
    destruct (addToCombatLog_frame "You fled from battle!" st)
      as (_ & _ & _ & -> & _ & ->).
    exact H.
  - exact H.
Qed.

Lemma session_nonneg (l : list Action) (st : Page) :
  nonneg st -> nonneg (session st l).
Proof.
  revert st. induction l as [|a l IH]; intros st H; [exact H|].
  apply (IH (step st a)), step_nonneg, H.
Qed.

End Clamp.

(** C10. Every damage application clamps at zero. An accepted attack or
    skill leaves [monsterHP] at 0 or above, at exactly 0 when the damage is
    at least the remaining hit points; a counter-attack that fires does the
    same to [playerHP]. Hence both counters stay at or above zero along any
    sequence of actions and waits of an encounter that starts so. *)
Theorem hp_clamped_at_zero (st : Combat.Page) :
  (forall (m : Monster.t) (u : User.t),
     Combat.location st = None ->
     Combat.currentMonster (Combat.render st) = Some m ->
     Combat.user (Combat.render st) = Some u ->
     0 <= Combat.monsterHP (Combat.render (Combat.handleAttack st))
     /\ (Combat.monsterHP (Combat.render st) <= Combat.attackDamage u m ->
         Combat.monsterHP (Combat.render (Combat.handleAttack st)) = 0))
  /\ (forall (skill : Skill.t) (m : Monster.t) (u : User.t),
        Combat.location st = None ->
        Combat.currentMonster (Combat.render st) = Some m ->
        Combat.user (Combat.render st) = Some u ->
        Skill.mana_cost skill <= Combat.playerMP (Combat.render st) ->
        0 <= Combat.monsterHP (Combat.render (Combat.handleSkillUse skill st))
        /\ (Combat.monsterHP (Combat.render st) <= Combat.castDamage u skill m ->
            Combat.monsterHP (Combat.render (Combat.handleSkillUse skill st))
            = 0))
  /\ (forall (closure : Combat.Render) (m : Monster.t) (u : User.t),
        Combat.location st = None ->
        Combat.currentMonster closure = Some m ->
        Combat.user closure = Some u ->
        0 <= Combat.playerHP (Combat.render (Combat.monsterAttack closure st))
        /\ (Combat.playerHP closure <= Combat.counterDamage u m ->
            Combat.playerHP (Combat.render (Combat.monsterAttack closure st))
            = 0))
  /\ (forall l : list Combat.Action,
        0 <= Combat.monsterHP (Combat.render st) ->
        0 <= Combat.playerHP (Combat.render st) ->
        0 <= Combat.monsterHP (Combat.render (Combat.session st l))
        /\ 0 <= Combat.playerHP (Combat.render (Combat.session st l))).
Proof.
  split; [|split; [|split]].
  - intros m u Hl Hm Hu.
    destruct (handleAttack_accepted st m u Hl Hm Hu) as (-> & _). lia.
  - intros skill m u Hl Hm Hu Hmp.
    destruct (handleSkillUse_accepted skill st m u Hl Hm Hu Hmp) as (-> & _).
    lia.
  - intros closure m u Hl Hm Hu.
    destruct (monsterAttack_fires closure st m u Hm Hu Hl) as (-> & _). lia.
  - intros l Hm Hp. apply session_nonneg. auto.
Qed.

(** A slime that hits for 150 against 100 hit points: the counter-attack
    leaves the hero at 0, not at -40. *)
Lemma hp_clamped_at_zero_witness :
  Combat.counterDamage (Sample.hero 5 5) (Sample.slime 30 150 3) = 140
  /\ Combat.playerHP
       (Combat.render
          (Combat.monsterAttack
             (Combat.render
                (Sample.encounter (Sample.hero 5 5) (Sample.slime 30 150 3) []))
             (Sample.encounter (Sample.hero 5 5) (Sample.slime 30 150 3) [])))
     = 0.
Proof.
  split; [reflexivity|].
  destruct (hp_clamped_at_zero
              (Sample.encounter (Sample.hero 5 5) (Sample.slime 30 150 3) []))
    as (_ & _ & Hcounter & _).
  destruct (Hcounter
              (Combat.render
                 (Sample.encounter (Sample.hero 5 5) (Sample.slime 30 150 3) []))
              (Sample.slime 30 150 3) (Sample.hero 5 5)
              eq_refl eq_refl eq_refl) as [_ Hzero].
  apply Hzero. vm_compute. discriminate.
Defined.

(** The merge of the specification's example, through [addItem_stacks]. *)
Lemma addItem_stacks_witness :
  GameContext.inventory
    (GameContext.addItem Sample.stores_up (Sample.potion (Some 2)) Sample.world).1
  = <[0%nat := Item.with_quantity (3 + 2) (Sample.potion (Some 3))]>
      (GameContext.inventory Sample.world)
  /\ length (GameContext.inventory
               (GameContext.addItem Sample.stores_up (Sample.potion (Some 2))
                  Sample.world).1)
     = length (GameContext.inventory Sample.world).
Proof.
  destruct (addItem_stacks Sample.stores_up (Sample.potion (Some 2)) Sample.world)
    as (Hmerge & _).
  apply (Hmerge 0%nat (Sample.potion (Some 3)) 2); [reflexivity.. | discriminate].
Defined.

(** * Further properties of the providers *)

(** ** Removing items *)

Section Removal.

Import GameContext.

Variable itemId : string.
Variable quantity : Z.

Local Abbreviation kept item :=
  (if decide (Item.id item = itemId)
   then
     if 0 <? or_default (Item.quantity item) 1 - quantity
     then [Item.with_quantity (or_default (Item.quantity item) 1 - quantity) item]
     else []
   else [item]).

Lemma afterRemoval_foldl (acc inventory : list Item.t) :
  foldl (fun acc item =>
           if decide (Item.id item = itemId)
           then
             let newQuantity := or_default (Item.quantity item) 1 - quantity in
             if 0 <? newQuantity
             then acc ++ [Item.with_quantity newQuantity item]
             else acc
           else acc ++ [item])
        acc inventory
  = acc ++ afterRemoval inventory itemId quantity.
Proof.
  unfold afterRemoval. revert acc.
  induction inventory as [|item l IH]; intros acc; simpl.
  - rewrite app_nil_r. reflexivity.
  - rewrite IH. rewrite (IH (if decide _ then _ else _)).
    destruct (decide (Item.id item = itemId)); [destruct (0 <? _)|]; simpl;
      rewrite <- ?app_assoc; reflexivity.
Qed.

Lemma afterRemoval_cons (item : Item.t) (l : list Item.t) :
  afterRemoval (item :: l) itemId quantity
  = kept item ++ afterRemoval l itemId quantity.
Proof.
  unfold afterRemoval at 1. simpl. rewrite afterRemoval_foldl.
  destruct (decide (Item.id item = itemId)); [destruct (0 <? _)|]; reflexivity.
Qed.

Lemma afterRemoval_app (l1 l2 : list Item.t) :
  afterRemoval (l1 ++ l2) itemId quantity
  = afterRemoval l1 itemId quantity ++ afterRemoval l2 itemId quantity.
Proof.
  induction l1 as [|item l1 IH]; [reflexivity|].
  simpl. rewrite !afterRemoval_cons, IH, app_assoc. reflexivity.
Qed.

Lemma afterRemoval_absent (l : list Item.t) :
  Forall (fun i => Item.id i <> itemId) l ->
  afterRemoval l itemId quantity = l.
Proof.
  induction 1 as [|item l Hne _ IH]; [reflexivity|].
  rewrite afterRemoval_cons, IH.
  destruct (decide (Item.id item = itemId)); [contradiction | reflexivity].
Qed.

Lemma afterRemoval_exhausted (l : list Item.t) :
  Forall (fun i => Item.id i = itemId ->
                   or_default (Item.quantity i) 1 <= quantity) l ->
  afterRemoval l itemId quantity = filter (fun i => Item.id i <> itemId) l.
Proof.
  induction 1 as [|item l Hle _ IH]; [reflexivity|].
  rewrite afterRemoval_cons, IH, filter_cons.
  destruct (decide (Item.id item = itemId)) as [E|E].
  - destruct (Z.ltb_spec 0 (or_default (Item.quantity item) 1 - quantity));
      [specialize (Hle E); lia|].
    destruct (decide (Item.id item <> itemId)); [contradiction | reflexivity].
  - destruct (decide (Item.id item <> itemId)); [reflexivity | contradiction].
Qed.

Lemma afterRemoval_others (l : list Item.t) :
  filter (fun i => Item.id i <> itemId) (afterRemoval l itemId quantity)
  = filter (fun i => Item.id i <> itemId) l.
Proof.
  induction l as [|item l IH]; [reflexivity|].
  rewrite afterRemoval_cons, filter_app, IH, filter_cons.
  destruct (decide (Item.id item = itemId)) as [E|E].
  - destruct (decide (Item.id item <> itemId)); [contradiction|].
    destruct (0 <? _); [|reflexivity].
    rewrite filter_cons. simpl.
    destruct (decide (Item.id item <> itemId)); [contradiction | reflexivity].
  - destruct (decide (Item.id item <> itemId)); [|contradiction].
    rewrite filter_cons.
    destruct (decide (Item.id item <> itemId)); [reflexivity | contradiction].
Qed.

Lemma afterRemoval_positive (l : list Item.t) :
  Forall (fun i => Item.id i = itemId ->
                   exists n, Item.quantity i = Some n /\ 0 < n)
         (afterRemoval l itemId quantity).
Proof.
  induction l as [|item l IH]; [constructor|].
  rewrite afterRemoval_cons. apply Forall_app. split; [|exact IH].
  destruct (decide (Item.id item = itemId)) as [E|E].
  - destruct (Z.ltb_spec 0 (or_default (Item.quantity item) 1 - quantity));
      [|constructor].
    repeat constructor. intros _. simpl. eauto.
  - repeat constructor. intros E'. simpl in E'. contradiction.
Qed.

Lemma afterRemoval_length (l : list Item.t) :
  (length (afterRemoval l itemId quantity) <= length l)%nat.
Proof.
  induction l as [|item l IH]; [reflexivity|].
  rewrite afterRemoval_cons, length_app. simpl.
  destruct (decide _); [destruct (0 <? _)|]; simpl; lia.
Qed.

End Removal.

Lemma removeItem_inventory (env : GameContext.Env) (itemId : string)
  (quantity : option Z) (w : GameContext.World) :
  GameContext.inventory (GameContext.removeItem env itemId quantity w).1
  = GameContext.afterRemoval (GameContext.inventory w) itemId
      (default 1 quantity).
Proof.
  unfold GameContext.removeItem, GameContext.bind, GameContext.modify,
    GameContext.saveInventoryData.
  simpl. destruct (GameContext.user w); [destruct (GameContext.setItem_ok env)|];
    reflexivity.
Qed.

(** X1. Removing an id the inventory does not hold changes nothing in it,
    whatever the amount, and whatever the store does. *)
Theorem removeItem_absent (env : GameContext.Env) (itemId : string)
  (quantity : option Z) (w : GameContext.World) :
  Forall (fun i => Item.id i <> itemId) (GameContext.inventory w) ->
  GameContext.inventory (GameContext.removeItem env itemId quantity w).1
  = GameContext.inventory w.
Proof.
  intros H. rewrite removeItem_inventory. apply afterRemoval_absent, H.
Qed.

Lemma removeItem_absent_witness :
  GameContext.inventory
    (GameContext.removeItem Sample.stores_up "sword" (Some 7) Sample.world).1
  = [Sample.potion (Some 3)].
Proof.
  apply (removeItem_absent Sample.stores_up "sword" (Some 7) Sample.world).
  repeat constructor. discriminate.
Defined.

(** X2. [removeItem] works on one id only: the entries of every other id
    are afterwards what they were, in the same order; an entry that remains
    under the removed id has a quantity above 0; and the inventory has not
    grown. *)
Theorem removeItem_confined (env : GameContext.Env) (itemId : string)
  (quantity : option Z) (w : GameContext.World) :
  filter (fun i => Item.id i <> itemId)
    (GameContext.inventory (GameContext.removeItem env itemId quantity w).1)
  = filter (fun i => Item.id i <> itemId) (GameContext.inventory w)
  /\ Forall (fun i => Item.id i = itemId ->
                      exists n, Item.quantity i = Some n /\ 0 < n)
       (GameContext.inventory (GameContext.removeItem env itemId quantity w).1)
  /\ (length (GameContext.inventory
                (GameContext.removeItem env itemId quantity w).1)
      <= length (GameContext.inventory w))%nat.
Proof.
  rewrite removeItem_inventory.
  split; [apply afterRemoval_others|].
  split; [apply afterRemoval_positive | apply afterRemoval_length].
Qed.

(** X3. When the amount covers the stock of every entry of the id (an entry
    without quantity has a stock of 1), those entries are gone, none is
    left behind at quantity 0, and the rest is untouched. *)
Theorem removeItem_exhausts (env : GameContext.Env) (itemId : string)
  (quantity : option Z) (w : GameContext.World) :
  Forall (fun i => Item.id i = itemId ->
                   or_default (Item.quantity i) 1 <= default 1 quantity)
         (GameContext.inventory w) ->
  GameContext.inventory (GameContext.removeItem env itemId quantity w).1
  = filter (fun i => Item.id i <> itemId) (GameContext.inventory w).
Proof.
  intros H. rewrite removeItem_inventory. apply afterRemoval_exhausted, H.
Qed.

(** Five potions removed from a stack of three. *)
Lemma removeItem_exhausts_witness :
  GameContext.inventory
    (GameContext.removeItem Sample.stores_up "potion" (Some 5) Sample.world).1
  = [].
Proof.
  apply (removeItem_exhausts Sample.stores_up "potion" (Some 5) Sample.world).
  repeat constructor. intros _. vm_compute. discriminate.
Defined.

(** X4. Adding an item whose id is new to the inventory and then removing
    as many of it as were added (1 for an item without quantity) gives the
    inventory back. *)
Theorem addItem_removeItem_fresh (env : GameContext.Env) (item : Item.t)
  (w : GameContext.World) :
  Forall (fun i => Item.id i <> Item.id item) (GameContext.inventory w) ->
  GameContext.inventory
    (GameContext.removeItem env (Item.id item)
       (Some (or_default (Item.quantity item) 1))
       (GameContext.addItem env item w).1).1
  = GameContext.inventory w.
Proof.
  intros Hfresh. rewrite removeItem_inventory, addItem_inventory.
  assert (Hnone : list_find (fun i => Item.id i = Item.id item)
                    (GameContext.inventory w) = None).
  { apply list_find_None. exact Hfresh. }
  unfold GameContext.updatedInventory. rewrite Hnone. simpl.
  rewrite afterRemoval_app, afterRemoval_absent by exact Hfresh.
  rewrite afterRemoval_cons.
  destruct (decide (Item.id item = Item.id item)); [|contradiction].
  rewrite Z.sub_diag. simpl. apply app_nil_r.
Qed.

Lemma addItem_removeItem_fresh_witness :
  GameContext.inventory
    (GameContext.removeItem Sample.stores_up "sword" (Some 1)
       (GameContext.addItem Sample.stores_up Sample.sword Sample.world).1).1
  = [Sample.potion (Some 3)].
Proof.
  apply (addItem_removeItem_fresh Sample.stores_up Sample.sword Sample.world).
  repeat constructor. discriminate.
Defined.

Lemma or_default_nonzero (n d : Z) : n <> 0 -> or_default (Some n) d = n.
Proof.
  intros H. unfold or_default, truthy.
  destruct (Z.eqb_spec n 0); [contradiction | reflexivity].
Qed.

Lemma list_find_middle {A} (P : A -> Prop) `{forall x, Decision (P x)}
  (l1 l2 : list A) (x : A) :
  Forall (fun y => ~ P y) l1 -> P x ->
  list_find P (l1 ++ x :: l2) = Some (length l1, x).
Proof.
  intros Hl1 Hx. apply list_find_Some. split; [|split; [exact Hx|]].
  - rewrite lookup_app_r by lia. rewrite Nat.sub_diag. reflexivity.
  - intros j y Hj Hlt. rewrite lookup_app_l in Hj by exact Hlt.
    rewrite Forall_forall in Hl1. apply Hl1.
    apply list_elem_of_lookup. eauto.
Qed.

(** X5. Stacking and unstacking cancel. Where the inventory holds exactly
    one entry of an id, with a quantity above 0, adding a positive quantity
    of that id and then removing the same quantity gives the inventory
    back, entry for entry. *)
Theorem addItem_removeItem_stack (env : GameContext.Env) (item e : Item.t)
  (l1 l2 : list Item.t) (n q : Z) (w : GameContext.World) :
  GameContext.inventory w = l1 ++ e :: l2 ->
  Forall (fun i => Item.id i <> Item.id item) l1 ->
  Forall (fun i => Item.id i <> Item.id item) l2 ->
  Item.id e = Item.id item ->
  Item.quantity e = Some n -> 0 < n ->
  Item.quantity item = Some q -> 0 < q ->
  GameContext.inventory
    (GameContext.removeItem env (Item.id item) (Some q)
       (GameContext.addItem env item w).1).1
  = GameContext.inventory w.
Proof.
  intros Hinv Hl1 Hl2 Hid Hn Hnpos Hq Hqpos.
  rewrite removeItem_inventory, addItem_inventory, Hinv.
  unfold GameContext.updatedInventory.
  rewrite (list_find_middle (fun i => Item.id i = Item.id item) l1 l2 e Hl1 Hid).
  simpl. rewrite Hq. simpl.
  destruct (Z.eqb_spec q 0); [lia|]. simpl.
  rewrite imap_at.
  rewrite (alter_at _ (length l1) (l1 ++ e :: l2) e)
    by (rewrite lookup_app_r by lia; rewrite Nat.sub_diag; reflexivity).
  rewrite Hn, !or_default_nonzero by lia.
  replace (length l1) with (length l1 + 0)%nat by lia.
  rewrite insert_app_r. simpl.
  rewrite afterRemoval_app, afterRemoval_cons.
  rewrite !afterRemoval_absent by assumption.
  simpl. destruct (decide (Item.id e = Item.id item)); [|contradiction].
  rewrite or_default_nonzero by lia.
  replace (n + q - q) with n by lia.
  destruct (Z.ltb_spec 0 n); [|lia].
  destruct e; simpl in *; subst. reflexivity.
Qed.

Lemma addItem_removeItem_stack_witness :
  GameContext.inventory
    (GameContext.removeItem Sample.stores_up "potion" (Some 2)
       (GameContext.addItem Sample.stores_up (Sample.potion (Some 2))
          Sample.world).1).1
  = [Sample.potion (Some 3)].
Proof.
  apply (addItem_removeItem_stack Sample.stores_up (Sample.potion (Some 2))
           (Sample.potion (Some 3)) [] [] 3 2 Sample.world);
    try reflexivity; constructor.
Defined.

(** ** Equipping *)

Lemma equipItem_inventory (env : GameContext.Env) (itemId : string)
  (w : GameContext.World) :
  GameContext.inventory (GameContext.equipItem env itemId w).1
  = (fun item =>
       if decide (Item.id item = itemId)
       then GameContext.with_isEquipped true item else item)
    <$> GameContext.inventory w.
Proof.
  unfold GameContext.equipItem, GameContext.bind, GameContext.modify,
    GameContext.saveInventoryData.
  simpl. destruct (GameContext.user w); [destruct (GameContext.setItem_ok env)|];
    reflexivity.
Qed.

Lemma unequipItem_inventory (env : GameContext.Env) (itemId : string)
  (w : GameContext.World) :
  GameContext.inventory (GameContext.unequipItem env itemId w).1
  = (fun item =>
       if decide (Item.id item = itemId)
       then GameContext.with_isEquipped false item else item)
    <$> GameContext.inventory w.
Proof.
  unfold GameContext.unequipItem, GameContext.bind, GameContext.modify,
    GameContext.saveInventoryData.
  simpl. destruct (GameContext.user w); [destruct (GameContext.setItem_ok env)|];
    reflexivity.
Qed.

(** X6. Equipping is per entry and has no slots: each position keeps its
    entry with the same id, name, value and quantity; an entry of the
    equipped id is equipped afterwards, any other entry is exactly what it
    was, so whatever was equipped stays equipped. *)
Theorem equipItem_no_slots (env : GameContext.Env) (itemId : string)
  (w : GameContext.World) (k : nat) (item : Item.t) :
  GameContext.inventory w !! k = Some item ->
  exists item',
    GameContext.inventory (GameContext.equipItem env itemId w).1 !! k
      = Some item'
    /\ Item.id item' = Item.id item
    /\ Item.name item' = Item.name item
    /\ Item.value item' = Item.value item
    /\ Item.quantity item' = Item.quantity item
    /\ (Item.id item = itemId -> Item.isEquipped item' = Some true)
    /\ (Item.id item <> itemId -> item' = item)
    /\ (Item.isEquipped item = Some true -> Item.isEquipped item' = Some true).
Proof.
  intros Hk. rewrite equipItem_inventory, list_lookup_fmap, Hk. simpl.
  eexists. split; [reflexivity|].
  destruct (decide (Item.id item = itemId)); simpl; repeat split;
    auto; congruence.
Qed.

Lemma equipItem_no_slots_witness :
  exists item',
    GameContext.inventory
      (GameContext.equipItem Sample.stores_up "sword"
         (GameContext.setInventory
            [Sample.potion (Some 3); Sample.sword] Sample.world)).1 !! 1%nat
      = Some item'
    /\ Item.id item' = "sword"
    /\ Item.name item' = "Iron Sword"
    /\ Item.value item' = 99
    /\ Item.quantity item' = None
    /\ ("sword" = "sword" -> Item.isEquipped item' = Some true)
    /\ ("sword" <> "sword" -> item' = Sample.sword)
    /\ (Some false = Some true -> Item.isEquipped item' = Some true).
Proof.
  exact (equipItem_no_slots Sample.stores_up "sword"
           (GameContext.setInventory
              [Sample.potion (Some 3); Sample.sword] Sample.world)
           1%nat Sample.sword eq_refl).
Defined.

(** X7. Equipping twice is equipping once, and the later of an equip and an
    unequip of the same id wins. An unequip does not undo an equip where
    the entry had no [isEquipped] field before: the field is [false]
    afterwards, not absent. *)
Theorem equipItem_unequipItem (env : GameContext.Env) (itemId : string)
  (w : GameContext.World) :
  GameContext.inventory
    (GameContext.equipItem env itemId (GameContext.equipItem env itemId w).1).1
  = GameContext.inventory (GameContext.equipItem env itemId w).1
  /\ GameContext.inventory
       (GameContext.unequipItem env itemId
          (GameContext.equipItem env itemId w).1).1
     = GameContext.inventory (GameContext.unequipItem env itemId w).1
  /\ GameContext.inventory
       (GameContext.equipItem env itemId
          (GameContext.unequipItem env itemId w).1).1
     = GameContext.inventory (GameContext.equipItem env itemId w).1
  /\ Forall (fun item => Item.id item = itemId ->
                         Item.isEquipped item = Some false)
       (GameContext.inventory
          (GameContext.unequipItem env itemId
             (GameContext.equipItem env itemId w).1).1).
Proof.
  repeat (rewrite equipItem_inventory || rewrite unequipItem_inventory).
  rewrite <- !list_fmap_compose.
  repeat split.
  - apply list_fmap_ext. intros _ item _. simpl.
    destruct (decide (Item.id item = itemId)) as [E|E]; simpl;
      [rewrite decide_True by exact E | rewrite decide_False by exact E];
      reflexivity.
  - apply list_fmap_ext. intros _ item _. simpl.
    destruct (decide (Item.id item = itemId)) as [E|E]; simpl;
      [rewrite decide_True by exact E | rewrite decide_False by exact E];
      reflexivity.
  - apply list_fmap_ext. intros _ item _. simpl.
    destruct (decide (Item.id item = itemId)) as [E|E]; simpl;
      [rewrite decide_True by exact E | rewrite decide_False by exact E];
      reflexivity.
  - apply Forall_fmap, Forall_forall. intros item _. simpl.
    destruct (decide (Item.id item = itemId)) as [E|E]; simpl;
      [rewrite decide_True by exact E | rewrite decide_False by exact E];
      simpl; [reflexivity | contradiction].
Qed.

(** ** Buying and selling *)

Section Shop.

Import GameContext.

Variable env : Env.

Ltac run_shop :=
  unfold bind, ret, modify, throw, addItem, removeItem, saveInventoryData,
    updateUser, detached, bind, ret, modify, throw; simpl.

(** X8. [buyItem] refuses, returning [false] and changing nothing, when
    nobody is signed in or the gold does not cover the item's value; no
    store is called. *)
Theorem buyItem_refused (item : Item.t) (w : World) :
  (forall u, user w = Some u ->
             Character.gold (User.character u) < Item.value item) ->
  buyItem env item w = (w, Returned false).
Proof.
  intros H. unfold buyItem. destruct (user w) as [u|]; [|reflexivity].
  specialize (H u eq_refl).
  destruct (Z.ltb_spec (Character.gold (User.character u)) (Item.value item));
    [reflexivity | lia].
Qed.

Lemma settled_reload {A} (m : Task A) (w w1 : World) (outcome : Outcome A)
  (u : User.t) :
  m w = (w1, outcome) ->
  effect_due w1 = true ->
  user w1 = Some u ->
  (settled env m w).2 = outcome
  /\ user (settled env m w).1 = Some u
  /\ characters (settled env m w).1 = characters w1
  /\ localStorage (settled env m w).1 = localStorage w1
  /\ inventory (settled env m w).1
     = match getUserQuests env (User.id u),
             localStorage w1 !! ("inventory_" +:+ User.id u) with
       | Some _, Some savedInventory => savedInventory
       | _, _ => inventory w1
       end.
Proof.
  intros Hm Hdue Hu. unfold settled. rewrite Hm, Hdue.
  unfold useEffect_user, loadGameData. cbn [user effect_done]. rewrite Hu.
  unfold bind, modify, ret. cbn [localStorage effect_done setQuests].
  destruct (getUserQuests env (User.id u)) as [userQuests|];
    [destruct (localStorage w1 !! ("inventory_" +:+ User.id u))|];
    simpl; rewrite ?Hu; auto 10.
Qed.

(** X9. An affordable purchase with the character store answering, once it
    has settled. The gold is down by the item's value and at or above 0,
    in memory and in the character row. If the inventory was stored,
    [buyItem] has returned [true] and the inventory, in memory and stored,
    is what [addItem] makes of it. If the write was refused, [buyItem] has
    thrown, the stored inventory is the old one, and the reload that the
    new user sets off puts the stored one back in memory whenever the quest
    store answers: the gold is gone and the item is not there. *)
Theorem buyItem_paid (item : Item.t) (w : World) (u : User.t) :
  user w = Some u ->
  Item.value item <= Character.gold (User.character u) ->
  updateCharacter_ok env = true ->
  user (settled env (buyItem env item) w).1
    = Some (User.with_character
              (with_gold (Character.gold (User.character u) - Item.value item)
                 (User.character u)) u)
  /\ characters (settled env (buyItem env item) w).1
     = <[User.id u :=
           with_gold (Character.gold (User.character u) - Item.value item)
             (User.character u)]> (characters w)
  /\ Character.gold <$> (User.character <$> user (settled env (buyItem env item) w).1)
     = Some (Character.gold (User.character u) - Item.value item)
  /\ Character.gold
       <$> (characters (settled env (buyItem env item) w).1 !! User.id u)
     = Some (Character.gold (User.character u) - Item.value item)
  /\ 0 <= Character.gold (User.character u) - Item.value item
  /\ (setItem_ok env = true ->
      (settled env (buyItem env item) w).2 = Returned true
      /\ inventory (settled env (buyItem env item) w).1
         = updatedInventory (inventory w) item
      /\ localStorage (settled env (buyItem env item) w).1
         = <["inventory_" +:+ User.id u := updatedInventory (inventory w) item]>
             (localStorage w))
  /\ (setItem_ok env = false ->
      (settled env (buyItem env item) w).2 = Thrown LocalStorageError
      /\ localStorage (settled env (buyItem env item) w).1 = localStorage w
      /\ inventory (settled env (buyItem env item) w).1
         = match getUserQuests env (User.id u),
                 localStorage w !! ("inventory_" +:+ User.id u) with
           | Some _, Some savedInventory => savedInventory
           | _, _ => updatedInventory (inventory w) item
           end).
Proof.
  intros Hu Hv Hc.
  destruct (setItem_ok env) eqn:Hs.
  - assert (Hbuy : buyItem env item w
                   = (setUser
                        (User.with_character
                           (with_gold (Character.gold (User.character u)
                                       - Item.value item) (User.character u)) u)
                        (write_character (User.id u)
                           (with_gold (Character.gold (User.character u)
                                       - Item.value item) (User.character u))
                           (write_localStorage ("inventory_" +:+ User.id u)
                              (updatedInventory (inventory w) item)
                              (setInventory
                                 (updatedInventory (inventory w) item) w))),
                      Returned true)).
    { unfold buyItem. rewrite Hu.
      destruct (Z.ltb_spec (Character.gold (User.character u)) (Item.value item));
        [lia|].
      run_shop. rewrite Hu, Hc, Hs. reflexivity. }
    destruct (settled_reload _ _ _ _ _ Hbuy eq_refl eq_refl)
      as (-> & -> & -> & -> & ->).
    cbn [characters localStorage inventory setUser write_character
      write_localStorage setInventory User.id User.with_character].
    rewrite !lookup_insert_eq.
    repeat split; try discriminate; try lia.
    destruct (getUserQuests env (User.id u)); reflexivity.
  - assert (Hbuy : buyItem env item w
                   = (setUser
                        (User.with_character
                           (with_gold (Character.gold (User.character u)
                                       - Item.value item) (User.character u)) u)
                        (write_character (User.id u)
                           (with_gold (Character.gold (User.character u)
                                       - Item.value item) (User.character u))
                           (setInventory
                              (updatedInventory (inventory w) item) w)),
                      Thrown LocalStorageError)).
    { unfold buyItem. rewrite Hu.
      destruct (Z.ltb_spec (Character.gold (User.character u)) (Item.value item));
        [lia|].
      run_shop. rewrite Hu, Hc, Hs. reflexivity. }
    destruct (settled_reload _ _ _ _ _ Hbuy eq_refl eq_refl)
      as (-> & -> & -> & -> & ->).
    cbn [characters localStorage inventory setUser write_character
      write_localStorage setInventory User.id User.with_character].
    rewrite !lookup_insert_eq.
    repeat split; try discriminate; try lia.
Qed.

(** X10. An affordable purchase with the character store down: the failed
    update is nobody's to catch, so the item is added all the same while
    the gold, in memory and in the row, is what it was; with the inventory
    stored, [buyItem] still returns [true]. *)
Theorem buyItem_unpaid (item : Item.t) (w : World) (u : User.t) :
  user w = Some u ->
  Item.value item <= Character.gold (User.character u) ->
  updateCharacter_ok env = false ->
  user (buyItem env item w).1 = Some u
  /\ characters (buyItem env item w).1 = characters w
  /\ inventory (buyItem env item w).1 = updatedInventory (inventory w) item
  /\ (setItem_ok env = true -> (buyItem env item w).2 = Returned true).
Proof.
  intros Hu Hv Hc. unfold buyItem. rewrite Hu.
  destruct (Z.ltb_spec (Character.gold (User.character u)) (Item.value item));
    [lia|].
  run_shop. rewrite Hu, Hc.
  destruct (setItem_ok env); simpl; repeat split; auto; discriminate.
Qed.

(** X11. [sellItem] refuses, returning [false] and changing nothing, when
    the inventory has no entry of the id or nobody is signed in. *)
Theorem sellItem_refused (itemId : string) (w : World) :
  list_find (fun i => Item.id i = itemId) (inventory w) = None
  \/ user w = None ->
  sellItem env itemId w = (w, Returned false).
Proof.
  unfold sellItem. intros [-> | ->]; [reflexivity|].
  destruct (list_find _ _) as [[? ?]|]; reflexivity.
Qed.

(** What [sellItem] leaves behind when the character store answers. *)
Lemma sellItem_paid_world (itemId : string) (w : World) (u : User.t) (k : nat)
  (item : Item.t) :
  list_find (fun i => Item.id i = itemId) (inventory w) = Some (k, item) ->
  user w = Some u ->
  updateCharacter_ok env = true ->
  sellItem env itemId w
  = (setUser
       (User.with_character
          (with_gold (Character.gold (User.character u) + Item.value item / 2)
             (User.character u)) u)
       (write_character (User.id u)
          (with_gold (Character.gold (User.character u) + Item.value item / 2)
             (User.character u))
          (if setItem_ok env
           then write_localStorage ("inventory_" +:+ User.id u)
                  (afterRemoval (inventory w) itemId 1)
                  (setInventory (afterRemoval (inventory w) itemId 1) w)
           else setInventory (afterRemoval (inventory w) itemId 1) w)),
     if setItem_ok env then Returned true else Thrown LocalStorageError).
Proof.
  intros Hf Hu Hc. unfold sellItem. rewrite Hf, Hu.
  run_shop. rewrite Hu, Hc. destruct (setItem_ok env); reflexivity.
Qed.

(** X12. A sale with the character store answering, once it has settled.
    The gold is up by half the value of the first entry of the id, rounded
    down, in memory and in the character row. If the inventory was stored,
    [sellItem] has returned [true] and the inventory, in memory and stored,
    is short of one unit through [removeItem]. If the write was refused,
    [sellItem] has thrown, the stored inventory is the old one, and the
    reload that the new user sets off puts it back in memory whenever the
    quest store answers: the gold is credited and the item is still
    there. *)
Theorem sellItem_paid (itemId : string) (w : World) (u : User.t) (k : nat)
  (item : Item.t) :
  list_find (fun i => Item.id i = itemId) (inventory w) = Some (k, item) ->
  user w = Some u ->
  updateCharacter_ok env = true ->
  user (settled env (sellItem env itemId) w).1
    = Some (User.with_character
              (with_gold
                 (Character.gold (User.character u) + Item.value item / 2)
                 (User.character u)) u)
  /\ characters (settled env (sellItem env itemId) w).1
     = <[User.id u :=
           with_gold (Character.gold (User.character u) + Item.value item / 2)
             (User.character u)]> (characters w)
  /\ Character.gold
       <$> (User.character <$> user (settled env (sellItem env itemId) w).1)
     = Some (Character.gold (User.character u) + Item.value item / 2)
  /\ Character.gold
       <$> (characters (settled env (sellItem env itemId) w).1 !! User.id u)
     = Some (Character.gold (User.character u) + Item.value item / 2)
  /\ 2 * (Item.value item / 2) <= Item.value item <= 2 * (Item.value item / 2) + 1
  /\ (setItem_ok env = true ->
      (settled env (sellItem env itemId) w).2 = Returned true
      /\ inventory (settled env (sellItem env itemId) w).1
         = afterRemoval (inventory w) itemId 1
      /\ localStorage (settled env (sellItem env itemId) w).1
         = <["inventory_" +:+ User.id u := afterRemoval (inventory w) itemId 1]>
             (localStorage w))
  /\ (setItem_ok env = false ->
      (settled env (sellItem env itemId) w).2 = Thrown LocalStorageError
      /\ localStorage (settled env (sellItem env itemId) w).1 = localStorage w
      /\ inventory (settled env (sellItem env itemId) w).1
         = match getUserQuests env (User.id u),
                 localStorage w !! ("inventory_" +:+ User.id u) with
           | Some _, Some savedInventory => savedInventory
           | _, _ => afterRemoval (inventory w) itemId 1
           end).
Proof.
  intros Hf Hu Hc.
  pose proof (sellItem_paid_world itemId w u k item Hf Hu Hc) as Hsell.
  pose proof (Z.div_mod (Item.value item) 2 ltac:(lia)) as Hdiv.
  pose proof (Z.mod_pos_bound (Item.value item) 2 ltac:(lia)) as Hmod.
  destruct (settled_reload _ _ _ _ _ Hsell eq_refl eq_refl)
    as (-> & -> & -> & -> & ->).
  destruct (setItem_ok env);
    cbn [characters localStorage inventory setUser write_character
      write_localStorage setInventory User.id User.with_character];
    rewrite ?lookup_insert_eq;
    repeat split; try discriminate; try lia.
  destruct (getUserQuests env (User.id u)); reflexivity.
Qed.

(** X13. [sellItem] pays for one entry but removes a unit from every entry
    of the id: when each of them has a stock of 1 or less (as entries
    without quantity do) and the inventory is stored, all of them are gone
    once the sale has settled, while the gold, in memory and in the row, is
    up by half the value of the first of them only. *)
Theorem sellItem_takes_duplicates (itemId : string) (w : World) (u : User.t)
  (k : nat) (item : Item.t) :
  list_find (fun i => Item.id i = itemId) (inventory w) = Some (k, item) ->
  user w = Some u ->
  Forall (fun i => Item.id i = itemId -> or_default (Item.quantity i) 1 <= 1)
         (inventory w) ->
  updateCharacter_ok env = true ->
  setItem_ok env = true ->
  inventory (settled env (sellItem env itemId) w).1
  = filter (fun i => Item.id i <> itemId) (inventory w)
  /\ localStorage (settled env (sellItem env itemId) w).1
       !! ("inventory_" +:+ User.id u)
     = Some (filter (fun i => Item.id i <> itemId) (inventory w))
  /\ user (settled env (sellItem env itemId) w).1
     = Some (User.with_character
               (with_gold
                  (Character.gold (User.character u) + Item.value item / 2)
                  (User.character u)) u)
  /\ characters (settled env (sellItem env itemId) w).1 !! User.id u
     = Some (with_gold
               (Character.gold (User.character u) + Item.value item / 2)
               (User.character u))
  /\ Character.gold
       <$> (User.character <$> user (settled env (sellItem env itemId) w).1)
     = Some (Character.gold (User.character u) + Item.value item / 2)
  /\ Character.gold
       <$> (characters (settled env (sellItem env itemId) w).1 !! User.id u)
     = Some (Character.gold (User.character u) + Item.value item / 2).
Proof.
  intros Hf Hu Hall Hc Hs.
  pose proof (sellItem_paid_world itemId w u k item Hf Hu Hc) as Hsell.
  destruct (settled_reload _ _ _ _ _ Hsell eq_refl eq_refl)
    as (_ & -> & -> & -> & ->).
  rewrite Hs.
  cbn [characters localStorage inventory setUser write_character
    write_localStorage setInventory User.id User.with_character].
  rewrite !lookup_insert_eq.
  rewrite (afterRemoval_exhausted itemId 1 (inventory w) Hall).
  repeat split; try reflexivity.
  destruct (getUserQuests env (User.id u)); reflexivity.
Qed.


End Shop.

Lemma buyItem_refused_witness :
  GameContext.buyItem Sample.stores_up
    (Item.mk "crown" "Crown" 500 None None) Sample.world
  = (Sample.world, GameContext.Returned false).
Proof.
  apply (buyItem_refused Sample.stores_up
           (Item.mk "crown" "Crown" 500 None None) Sample.world).
  intros u Hu. injection Hu as <-. reflexivity.
Defined.

(** The sword is paid for and [localStorage] refuses the write: the hero
    is left with 1 gold, [buyItem] has thrown, and after the reload the
    inventory is the stored potion, without the sword. *)
Lemma buyItem_paid_witness :
  GameContext.user
    (GameContext.settled Sample.storage_full
       (GameContext.buyItem Sample.storage_full Sample.sword) Sample.world).1
  = Some (User.with_character
            (GameContext.with_gold (100 - 99) (Sample.novice 5 5))
            (Sample.hero 5 5))
  /\ (GameContext.settled Sample.storage_full
        (GameContext.buyItem Sample.storage_full Sample.sword) Sample.world).2
     = GameContext.Thrown GameContext.LocalStorageError
  /\ GameContext.inventory
       (GameContext.settled Sample.storage_full
          (GameContext.buyItem Sample.storage_full Sample.sword) Sample.world).1
     = [Sample.potion (Some 3)].
Proof.
  destruct (buyItem_paid Sample.storage_full Sample.sword Sample.world
              (Sample.hero 5 5) eq_refl ltac:(discriminate) eq_refl)
    as (Hu & _ & _ & _ & _ & _ & Hfail).
  destruct (Hfail eq_refl) as (Hthrown & _ & Hinv).
  split; [exact Hu|]. split; [exact Hthrown | exact Hinv].
Defined.

(** The sword for nothing: the character store is down, the gold stays at
    100 and the sword is in the inventory. *)
Lemma buyItem_unpaid_witness :
  GameContext.user
    (GameContext.buyItem
       (GameContext.mkEnv (fun _ => None) (fun _ => None) false true)
       Sample.sword Sample.world).1
  = Some (Sample.hero 5 5)
  /\ GameContext.characters
       (GameContext.buyItem
          (GameContext.mkEnv (fun _ => None) (fun _ => None) false true)
          Sample.sword Sample.world).1
     = GameContext.characters Sample.world
  /\ GameContext.inventory
       (GameContext.buyItem
          (GameContext.mkEnv (fun _ => None) (fun _ => None) false true)
          Sample.sword Sample.world).1
     = [Sample.potion (Some 3); Sample.sword]
  /\ (true = true ->
      (GameContext.buyItem
         (GameContext.mkEnv (fun _ => None) (fun _ => None) false true)
         Sample.sword Sample.world).2
      = GameContext.Returned true).
Proof.
  exact (buyItem_unpaid (GameContext.mkEnv (fun _ => None) (fun _ => None) false true)
           Sample.sword Sample.world (Sample.hero 5 5)
           eq_refl ltac:(discriminate) eq_refl).
Defined.

Lemma sellItem_refused_witness :
  GameContext.sellItem Sample.stores_up "sword" Sample.world
  = (Sample.world, GameContext.Returned false).
Proof.
  apply (sellItem_refused Sample.stores_up "sword" Sample.world).
  left. reflexivity.
Defined.

(** A sword worth 99 sells for 49. *)
Lemma sellItem_paid_witness :
  GameContext.user
    (GameContext.settled Sample.stores_up
       (GameContext.sellItem Sample.stores_up "sword")
       (GameContext.setInventory [Sample.sword] Sample.world)).1
  = Some (User.with_character
            (GameContext.with_gold (100 + 99 / 2) (Sample.novice 5 5))
            (Sample.hero 5 5))
  /\ GameContext.inventory
       (GameContext.settled Sample.stores_up
          (GameContext.sellItem Sample.stores_up "sword")
          (GameContext.setInventory [Sample.sword] Sample.world)).1
     = [].
Proof.
  destruct (sellItem_paid Sample.stores_up "sword"
              (GameContext.setInventory [Sample.sword] Sample.world)
              (Sample.hero 5 5) 0%nat Sample.sword eq_refl eq_refl eq_refl)
    as (Hu & _ & _ & _ & _ & Hok & _).
  destruct (Hok eq_refl) as (_ & Hinv & _).
  split; [exact Hu | exact Hinv].
Defined.

(** Two swords and a potion: one sale, both swords gone, 49 gold more. *)
Lemma sellItem_takes_duplicates_witness :
  GameContext.inventory
    (GameContext.settled Sample.stores_up
       (GameContext.sellItem Sample.stores_up "sword")
       (GameContext.setInventory
          [Sample.sword; Sample.potion (Some 3); Sample.sword]
          Sample.world)).1
  = [Sample.potion (Some 3)]
  /\ GameContext.user
       (GameContext.settled Sample.stores_up
          (GameContext.sellItem Sample.stores_up "sword")
          (GameContext.setInventory
             [Sample.sword; Sample.potion (Some 3); Sample.sword]
             Sample.world)).1
     = Some (User.with_character
               (GameContext.with_gold (100 + 99 / 2) (Sample.novice 5 5))
               (Sample.hero 5 5)).
Proof.
  destruct (sellItem_takes_duplicates Sample.stores_up "sword"
              (GameContext.setInventory
                 [Sample.sword; Sample.potion (Some 3); Sample.sword]
                 Sample.world)
              (Sample.hero 5 5) 0%nat Sample.sword eq_refl eq_refl
              ltac:(repeat constructor; intros; vm_compute; discriminate)
              eq_refl eq_refl)
    as (Hinv & _ & Hu & _ & _ & _).
  split; [exact Hinv | exact Hu].
Defined.


(** ** Adding and deleting quests, reloading *)

(** X15. [deleteQuest] with the store answering removes every quest of the
    id and nothing else; with the store throwing it throws and leaves the
    world as it was. *)
Theorem deleteQuest_removes (deleted : bool) (questId : string)
  (w : GameContext.World) (u : User.t) :
  GameContext.user w = Some u ->
  if deleted
  then
    GameContext.deleteQuest true questId w
    = (GameContext.setQuests (filter (fun q => Quest.id q <> questId)) w,
       GameContext.Returned tt)
    /\ Forall (fun q => Quest.id q <> questId)
         (GameContext.quests (GameContext.deleteQuest true questId w).1)
    /\ (forall q, Quest.id q <> questId ->
          q ∈ GameContext.quests (GameContext.deleteQuest true questId w).1
          <-> q ∈ GameContext.quests w)
  else
    GameContext.deleteQuest false questId w
    = (w, GameContext.Thrown GameContext.QuestStoreError).
Proof.
  intros Hu. unfold GameContext.deleteQuest. rewrite Hu.
  destruct deleted; [|reflexivity].
  split; [reflexivity|]. simpl. split.
  - apply Forall_forall. intros q Hq. apply list_elem_of_filter in Hq. tauto.
  - intros q Hne. rewrite list_elem_of_filter. tauto.
Qed.

Lemma deleteQuest_removes_witness :
  GameContext.deleteQuest true "q2" Sample.world
  = (GameContext.setQuests (filter (fun q => Quest.id q <> "q2")) Sample.world,
     GameContext.Returned tt)
  /\ Forall (fun q => Quest.id q <> "q2")
       (GameContext.quests (GameContext.deleteQuest true "q2" Sample.world).1)
  /\ (forall q, Quest.id q <> "q2" ->
        q ∈ GameContext.quests (GameContext.deleteQuest true "q2" Sample.world).1
        <-> q ∈ GameContext.quests Sample.world).
Proof.
  exact (deleteQuest_removes true "q2" Sample.world (Sample.hero 5 5) eq_refl).
Defined.

(** X16. A deleted quest cannot be completed: after a [deleteQuest] that
    went through, [completeQuest] on the same id calls no store and changes
    nothing, so it grants no reward. *)
Theorem completeQuest_after_deleteQuest (env : GameContext.Env)
  (questId : string) (w : GameContext.World) :
  GameContext.completeQuest env questId
    (GameContext.deleteQuest true questId w).1
  = ((GameContext.deleteQuest true questId w).1, GameContext.Returned tt).
Proof.
  unfold GameContext.deleteQuest.
  destruct (GameContext.user w) as [u|] eqn:Hu.
  - apply completeQuest_unknown. simpl.
    apply list_find_None, Forall_forall. intros q Hq.
    apply list_elem_of_filter in Hq. tauto.
  - apply completeQuest_signed_out. exact Hu.
Qed.

(** X17. A quest added under an id no quest has yet and then deleted leaves
    the list of quests as it was. *)
Theorem addQuest_deleteQuest (newQuest : Quest.t) (w : GameContext.World)
  (u : User.t) :
  GameContext.user w = Some u ->
  Forall (fun q => Quest.id q <> Quest.id newQuest) (GameContext.quests w) ->
  GameContext.quests (GameContext.addQuest (Some newQuest) w).1
    = newQuest :: GameContext.quests w
  /\ GameContext.quests
       (GameContext.deleteQuest true (Quest.id newQuest)
          (GameContext.addQuest (Some newQuest) w).1).1
     = GameContext.quests w.
Proof.
  intros Hu Hfresh. unfold GameContext.addQuest, GameContext.deleteQuest.
  rewrite Hu. simpl. rewrite Hu. simpl. split; [reflexivity|].
  rewrite filter_cons.
  destruct (decide (Quest.id newQuest <> Quest.id newQuest)); [contradiction|].
  clear -Hfresh. induction Hfresh as [|q l Hq _ IH]; [reflexivity|].
  rewrite filter_cons, IH.
  destruct (decide (Quest.id q <> Quest.id newQuest)); [reflexivity | contradiction].
Qed.

Lemma addQuest_deleteQuest_witness :
  GameContext.quests
    (GameContext.addQuest (Some (Sample.quest "q9" 10 None false))
       Sample.world).1
  = Sample.quest "q9" 10 None false :: GameContext.quests Sample.world
  /\ GameContext.quests
       (GameContext.deleteQuest true "q9"
          (GameContext.addQuest (Some (Sample.quest "q9" 10 None false))
             Sample.world).1).1
     = GameContext.quests Sample.world.
Proof.
  apply (addQuest_deleteQuest (Sample.quest "q9" 10 None false) Sample.world
           (Sample.hero 5 5) eq_refl).
  repeat constructor; discriminate.
Defined.

(** X18. What [addItem] stored is what a reload finds. After an [addItem]
    whose write went through, [loadGameData] with the quest store answering
    sets the inventory to the one [addItem] produced, whatever the
    inventory in memory has become; after an [addItem] whose write was
    refused, the reload brings back the inventory stored before, without
    the item. *)
Theorem addItem_loadGameData (env : GameContext.Env) (item : Item.t)
  (w : GameContext.World) (u : User.t) (userQuests : list Quest.t)
  (stale : list Item.t) :
  GameContext.user w = Some u ->
  (GameContext.setItem_ok env = true ->
   GameContext.inventory
     (GameContext.loadGameData (Some userQuests)
        (GameContext.setInventory stale (GameContext.addItem env item w).1)).1
   = GameContext.updatedInventory (GameContext.inventory w) item)
  /\ (GameContext.setItem_ok env = false ->
      forall saved,
        GameContext.localStorage w !! ("inventory_" +:+ User.id u) = Some saved ->
        GameContext.inventory
          (GameContext.loadGameData (Some userQuests)
             (GameContext.addItem env item w).1).1
        = saved).
Proof.
  intros Hu.
  unfold GameContext.loadGameData, GameContext.addItem, GameContext.bind,
    GameContext.modify, GameContext.saveInventoryData, GameContext.throw,
    GameContext.ret.
  rewrite Hu. split.
  - intros ->. simpl. rewrite Hu. simpl. rewrite lookup_insert_eq. reflexivity.
  - intros -> saved Hsaved. simpl. rewrite Hu. simpl. rewrite Hsaved.
    reflexivity.
Qed.

Lemma addItem_loadGameData_witness :
  (true = true ->
   GameContext.inventory
     (GameContext.loadGameData (Some [])
        (GameContext.setInventory []
           (GameContext.addItem Sample.stores_up Sample.sword Sample.world).1)).1
   = GameContext.updatedInventory (GameContext.inventory Sample.world)
       Sample.sword)
  /\ (true = false ->
      forall saved,
        GameContext.localStorage Sample.world !! ("inventory_" +:+ "u1")
          = Some saved ->
        GameContext.inventory
          (GameContext.loadGameData (Some [])
             (GameContext.addItem Sample.stores_up Sample.sword Sample.world).1).1
        = saved).
Proof.
  exact (addItem_loadGameData Sample.stores_up Sample.sword Sample.world
           (Sample.hero 5 5) [] [] eq_refl).
Defined.

(** * Further properties of the combat page *)

Section Encounter.

Import Combat.

(** ** Frames *)

Lemma setState_render (f : Render -> Render) (st : Page) :
  render (setState f st) = render st \/ render (setState f st) = f (render st).
Proof. unfold setState. destruct (location st); simpl; auto. Qed.

(** A property of renders that the setters of a handler respect is kept by
    the handler's [setState]. *)
Lemma setState_keeps (P : Render -> Prop) (f : Render -> Render) (st : Page) :
  (forall r, P r -> P (f r)) -> P (render st) -> P (render (setState f st)).
Proof.
  intros Hf H. destruct (setState_render f st) as [-> | ->]; auto.
Qed.

Lemma monsterAttack_frame (closure : Render) (st : Page) :
  playerMP (render (monsterAttack closure st)) = playerMP (render st)
  /\ monsterHP (render (monsterAttack closure st)) = monsterHP (render st)
  /\ now (monsterAttack closure st) = now st
  /\ timers (monsterAttack closure st) = timers st
  /\ location (monsterAttack closure st) = location st.
Proof.
  unfold monsterAttack.
  destruct (currentMonster closure) as [m|]; [|auto 10].
  destruct (user closure) as [u|]; [|auto 10].
  set (hp' := Z.max 0 _). set (msg := (_ +:+ _)).
  assert (H1 : playerMP (render (setState (setPlayerHP hp') st))
               = playerMP (render st)
               /\ monsterHP (render (setState (setPlayerHP hp') st))
                  = monsterHP (render st)).
  { destruct (setState_render (setPlayerHP hp') st) as [-> | ->]; auto. }
  destruct H1 as [H1 H2].
  destruct (setState_frame (setPlayerHP hp') st) as (Hn & Ht & Hl).
  destruct (addToCombatLog_frame msg (setState (setPlayerHP hp') st))
    as (Hn' & Ht' & Hl' & _ & Hq & Hr).
  destruct (hp' <=? 0).
  - destruct (addToCombatLog_frame "You have been defeated!"
                (addToCombatLog msg (setState (setPlayerHP hp') st)))
      as (-> & -> & -> & _ & -> & ->).
    rewrite Hq, Hr, Hn', Ht', Hl', H1, H2, Hn, Ht, Hl. auto 10.
  - rewrite Hq, Hr, Hn', Ht', Hl', H1, H2, Hn, Ht, Hl. auto 10.
Qed.

Lemma run_location (cb : Callback) (st : Page) :
  location st <> None -> location (run cb st) <> None.
Proof.
  destruct cb as [closure|path]; simpl; [|discriminate].
  destruct (monsterAttack_frame closure st) as (_ & _ & _ & _ & ->). auto.
Qed.

(** What every firing callback keeps, the whole queue keeps. *)
Lemma fire_due_keeps (P : Page -> Prop) :
  (forall st n ts, P st ->
     P {| render := render st; now := n; timers := ts;
          location := location st |}) ->
  (forall cb st, P st -> P (run cb st)) ->
  forall t pending st, P st -> P (fire_due t pending st).
Proof.
  intros Hframe Hrun t pending.
  induction pending as [|[due cb] rest IH]; intros st H; simpl; [exact H|].
  destruct (due <=? t); [|exact H].
  apply IH, Hrun, Hframe, H.
Qed.

Lemma elapse_keeps (P : Render -> Prop) (ms : Z) (st : Page) :
  (forall closure st, P (render st) -> P (render (monsterAttack closure st))) ->
  P (render st) -> P (render (elapse ms st)).
Proof.
  intros Hm H. unfold elapse. cbn [render].
  apply (fire_due_keeps (fun st => P (render st))); auto.
  intros [closure|path] st' H'; simpl; auto.
Qed.

(** ** The log *)

Local Abbreviation short st := (length (combatLog (render st)) <= 10)%nat.

Lemma setState_short (f : Render -> Render) (st : Page) :
  (forall r, combatLog (f r) = combatLog r) ->
  short st -> short (setState f st).
Proof.
  intros Hf. apply (setState_keeps (fun r => (length (combatLog r) <= 10)%nat)).
  intros r. rewrite Hf. auto.
Qed.

Ltac short :=
  repeat first
    [ assumption
    | apply addToCombatLog_bounded
    | apply setState_short; [reflexivity|]
    | progress cbn [render setTimeout navigate] ].

Lemma handleAttack_short (st : Page) : short st -> short (handleAttack st).
Proof.
  intros H. unfold handleAttack.
  destruct (currentMonster (render st)), (user (render st)); try exact H.
  destruct (_ <=? _); unfold defeatedLog, setTimeout; short.
Qed.

Lemma handleSkillUse_short (skill : Skill.t) (st : Page) :
  short st -> short (handleSkillUse skill st).
Proof.
  intros H. unfold handleSkillUse.
  destruct (currentMonster (render st)), (user (render st)); try exact H.
  destruct (_ <? _); [exact H|].
  destruct (_ <=? _); unfold defeatedLog, setTimeout; short.
Qed.

Lemma monsterAttack_short (closure : Render) (st : Page) :
  short st -> short (monsterAttack closure st).
Proof.
  intros H. unfold monsterAttack.
  destruct (currentMonster closure), (user closure); try exact H.
  destruct (_ <=? _); short.
Qed.

Lemma step_short (st : Page) (a : Action) : short st -> short (step st a).
Proof.
  intros H. unfold step.
  destruct a; cbn [handle];
    try (apply (elapse_keeps (fun r => (length (combatLog r) <= 10)%nat));
         [apply monsterAttack_short | exact H]);
    (destruct (location st) eqn:El; [exact H|]);
    match goal with
    | |- context [if ?b then _ else _] => destruct b; [|exact H]
    end.
  - apply handleAttack_short, H.
  - short.
  - apply handleSkillUse_short, H.
  - short.
  - unfold handleRun, setTimeout. short.
  - exact H.
Qed.

(** X20. The combat log is a window of ten lines: from a log of at most ten
    lines, and so from the empty log the page mounts with, no sequence of
    actions and waits makes it longer; and a line logged on the mounted
    page is the last line of the log. *)
Theorem combatLog_window (st : Page) (l : list Action) :
  (length (combatLog (render st)) <= 10)%nat ->
  (length (combatLog (render (session st l))) <= 10)%nat
  /\ (forall message,
        location st = None ->
        last (combatLog (render (addToCombatLog message st))) = Some message).
Proof.
  intros H. split.
  - revert st H. induction l as [|a l IH]; intros st H; [exact H|].
    apply (IH (step st a)), step_short, H.
  - intros message Hl. unfold addToCombatLog.
    rewrite setState_mounted by exact Hl. simpl. unfold slice_last.
    set (k := (length (combatLog (render st) ++ [message]) - 10)%nat).
    assert (Hk : (k <= length (combatLog (render st)))%nat).
    { unfold k. rewrite length_app. simpl. lia. }
    rewrite drop_app_le by exact Hk. rewrite last_snoc. reflexivity.
Qed.

(** ** Mana and the monster's hit points *)

Lemma handleAttack_cases (st : Page) :
  location st = None ->
  handleAttack st = st
  \/ exists m u,
       currentMonster (render st) = Some m /\ user (render st) = Some u
       /\ monsterHP (render (handleAttack st))
          = Z.max 0 (monsterHP (render st) - attackDamage u m)
       /\ playerHP (render (handleAttack st)) = playerHP (render st)
       /\ playerMP (render (handleAttack st)) = playerMP (render st).
Proof.
  intros Hl.
  destruct (currentMonster (render st)) as [m|] eqn:Em;
    [destruct (user (render st)) as [u|] eqn:Eu|].
  - right. exists m, u.
    destruct (handleAttack_accepted st m u Hl Em Eu) as (? & ? & ? & _). auto.
  - left. apply handleAttack_rejected. auto.
  - left. apply handleAttack_rejected. auto.
Qed.

Lemma handleSkillUse_cases (skill : Skill.t) (st : Page) :
  location st = None ->
  handleSkillUse skill st = st
  \/ exists m u,
       currentMonster (render st) = Some m /\ user (render st) = Some u
       /\ Skill.mana_cost skill <= playerMP (render st)
       /\ monsterHP (render (handleSkillUse skill st))
          = Z.max 0 (monsterHP (render st) - castDamage u skill m)
       /\ playerHP (render (handleSkillUse skill st)) = playerHP (render st)
       /\ playerMP (render (handleSkillUse skill st))
          = playerMP (render st) - Skill.mana_cost skill.
Proof.
  intros Hl.
  destruct (currentMonster (render st)) as [m|] eqn:Em;
    [destruct (user (render st)) as [u|] eqn:Eu|];
    [destruct (Z.lt_ge_cases (playerMP (render st)) (Skill.mana_cost skill))| |].
  - left. apply handleSkillUse_rejected. auto.
  - right. exists m, u.
    destruct (handleSkillUse_accepted skill st m u Hl Em Eu) as (? & ? & ? & _);
      auto 10.
  - left. apply handleSkillUse_rejected. auto.
  - left. apply handleSkillUse_rejected. auto.
Qed.

Lemma castDamage_positive (u : User.t) (skill : Skill.t) (m : Monster.t) :
  1 <= castDamage u skill m.
Proof. unfold castDamage. lia. Qed.

(** One click, whatever it is: the player's hit points are untouched, the
    mana stays at or above 0, and the monster's hit points go down or stay
    but not below 0. *)
Lemma click_frame (st : Page) (a : Action) :
  (forall ms, a <> Wait ms) ->
  playerHP (render (step st a)) = playerHP (render st)
  /\ (0 <= playerMP (render st) -> 0 <= playerMP (render (step st a)))
  /\ (0 <= monsterHP (render st) ->
      0 <= monsterHP (render (step st a)) <= monsterHP (render st)).
Proof.
  intros Hclick. unfold step.
  assert (Hsame : playerHP (render st) = playerHP (render st)
                  /\ (0 <= playerMP (render st) -> 0 <= playerMP (render st))
                  /\ (0 <= monsterHP (render st) ->
                      0 <= monsterHP (render st) <= monsterHP (render st)))
    by (repeat split; auto; lia).
  destruct a; cbn [handle]; try (exfalso; eapply Hclick; reflexivity);
    (destruct (location st) eqn:El; [exact Hsame|]);
    match goal with
    | |- context [if ?b then _ else _] => destruct b; [|exact Hsame]
    end.
  - destruct (handleAttack_cases st El)
      as [-> | (m & u & _ & _ & -> & -> & ->)]; [exact Hsame|].
    destruct (damage_floor_attack u m). repeat split; auto; lia.
  - rewrite setState_mounted by exact El. exact Hsame.
  - destruct (handleSkillUse_cases skill st El)
      as [-> | (m & u & _ & _ & ? & -> & -> & ->)]; [exact Hsame|].
    pose proof (castDamage_positive u skill m). repeat split; auto; lia.
  - rewrite setState_mounted by exact El. exact Hsame.
  - unfold handleRun, setTimeout. cbn [render].
    destruct (addToCombatLog_frame "You fled from battle!" st)
      as (_ & _ & _ & -> & -> & ->).
    exact Hsame.
  - exact Hsame.
Qed.

(** A wait, however long: mana and the monster's hit points are
    untouched. *)
Lemma wait_frame (st : Page) (ms : Z) :
  playerMP (render (step st (Wait ms))) = playerMP (render st)
  /\ monsterHP (render (step st (Wait ms))) = monsterHP (render st).
Proof.
  unfold step. cbn [handle].
  apply (elapse_keeps
           (fun r => playerMP r = playerMP (render st)
                     /\ monsterHP r = monsterHP (render st)));
    [|auto].
  intros closure st' [H1 H2].
  destruct (monsterAttack_frame closure st') as (-> & -> & _). auto.
Qed.

Lemma step_vitals (st : Page) (a : Action) :
  0 <= playerMP (render st) -> 0 <= monsterHP (render st) ->
  0 <= playerMP (render (step st a))
  /\ 0 <= monsterHP (render (step st a)) <= monsterHP (render st).
Proof.
  intros Hmp Hhp.
  destruct a as [| |skill| | | |ms];
    try (match goal with
         | |- context [step st ?a] =>
             destruct (click_frame st a ltac:(discriminate)) as (_ & ? & ?)
         end; solve [auto]).
  destruct (wait_frame st ms) as [-> ->]. lia.
Qed.

(** X21. Along any sequence of actions and waits of an encounter that
    starts with mana and monster hit points at or above 0: the mana never
    goes below 0, and the monster's hit points never go up and never below
    0. *)
Theorem session_vitals (st : Page) (l : list Action) :
  0 <= playerMP (render st) -> 0 <= monsterHP (render st) ->
  0 <= playerMP (render (session st l))
  /\ 0 <= monsterHP (render (session st l)) <= monsterHP (render st).
Proof.
  revert st. induction l as [|a l IH]; intros st Hmp Hhp;
    [unfold session; simpl; lia|].
  destruct (step_vitals st a Hmp Hhp) as (Hmp' & Hhp' & Hle).
  destruct (IH (step st a) Hmp' Hhp') as (H1 & H2 & H3).
  change (session st (a :: l)) with (session (step st a) l).
  repeat split; [exact H1 | exact H2 | exact (Z.le_trans _ _ _ H3 Hle)].
Qed.

(** X22. Only time hurts the player and only a click hurts the monster: a
    click, offered or not, leaves [playerHP] as it is, and a wait, whatever
    fires in it, leaves [monsterHP] and [playerMP] as they are. *)
Theorem clicks_and_waits (st : Page) (a : Action) :
  match a with
  | Wait _ =>
      monsterHP (render (step st a)) = monsterHP (render st)
      /\ playerMP (render (step st a)) = playerMP (render st)
  | _ => playerHP (render (step st a)) = playerHP (render st)
  end.
Proof.
  destruct a as [| |skill| | | |ms];
    try (match goal with
         | |- context [step st ?a] =>
             destruct (click_frame st a ltac:(discriminate)) as (? & _)
         end; solve [auto]).
  destruct (wait_frame st ms). auto.
Qed.

(** ** What is on offer *)

(** X23. Once the battle is over, by victory or by defeat, the page offers
    nothing but the way back: every other click leaves the page exactly as
    it is. *)
Theorem battle_over_is_final (st : Page) (a : Action) :
  isBattleOver (render st) = true ->
  match a with
  | GoBack | Wait _ => True
  | _ => step st a = st
  end.
Proof.
  intros Hover.
  destruct a; try exact I; unfold step; destruct (location st); try reflexivity;
    unfold offered; rewrite Hover; simpl; rewrite andb_false_r; reflexivity.
Qed.

(** X24. When the monster could not be loaded, the page holds no monster,
    says so in the log, and offers nothing but the way back, which leads to
    "/adventure". *)
Theorem failed_load (u : option User.t)
  (unlockedSkills : option (list (option Skill.t))) (a : Action) :
  currentMonster (render (enter u None unlockedSkills)) = None
  /\ combatLog (render (enter u None unlockedSkills))
     = ["Failed to load monster. Please try again."]
  /\ isLoading (render (enter u None unlockedSkills)) = false
  /\ match a with
     | GoBack =>
         location (step (enter u None unlockedSkills) a) = Some "/adventure"
     | Wait _ => True
     | _ => step (enter u None unlockedSkills) a = enter u None unlockedSkills
     end.
Proof.
  assert (H : currentMonster (render (enter u None unlockedSkills)) = None
              /\ combatLog (render (enter u None unlockedSkills))
                 = ["Failed to load monster. Please try again."]
              /\ isLoading (render (enter u None unlockedSkills)) = false
              /\ location (enter u None unlockedSkills) = None).
  { unfold enter, loadPlayerSkills, initializeCombat, addToCombatLog, setState.
    destruct u, unlockedSkills; simpl; auto. }
  destruct H as (Hm & Hlog & Hload & Hloc).
  repeat split; auto.
  destruct a; try exact I; unfold step; rewrite Hloc; unfold offered;
    rewrite ?Hm, ?Hload; simpl; try reflexivity.
Qed.

(** X25. An encounter starts from the character's current vitals, not from
    the maxima nor from the page's defaults, and from the monster's full hit
    points; so it is over before the first move exactly when the character
    comes in with no hit points or the monster has none. *)
Theorem enter_seeds (u : User.t) (m : Monster.t)
  (unlockedSkills : option (list (option Skill.t))) :
  playerHP (render (enter (Some u) (Some m) unlockedSkills))
    = Vitals.currentHP (Character.vitals (User.character u))
  /\ playerMP (render (enter (Some u) (Some m) unlockedSkills))
     = Vitals.currentMP (Character.vitals (User.character u))
  /\ monsterHP (render (enter (Some u) (Some m) unlockedSkills)) = Monster.hp m
  /\ currentMonster (render (enter (Some u) (Some m) unlockedSkills)) = Some m
  /\ isLoading (render (enter (Some u) (Some m) unlockedSkills)) = false
  /\ timers (enter (Some u) (Some m) unlockedSkills) = []
  /\ (isBattleOver (render (enter (Some u) (Some m) unlockedSkills)) = true
      <-> Vitals.currentHP (Character.vitals (User.character u)) <= 0
          \/ Monster.hp m <= 0).
Proof.
  assert (H : playerHP (render (enter (Some u) (Some m) unlockedSkills))
              = Vitals.currentHP (Character.vitals (User.character u))
              /\ playerMP (render (enter (Some u) (Some m) unlockedSkills))
                 = Vitals.currentMP (Character.vitals (User.character u))
              /\ monsterHP (render (enter (Some u) (Some m) unlockedSkills))
                 = Monster.hp m
              /\ currentMonster (render (enter (Some u) (Some m) unlockedSkills))
                 = Some m
              /\ isLoading (render (enter (Some u) (Some m) unlockedSkills))
                 = false
              /\ timers (enter (Some u) (Some m) unlockedSkills) = []).
  { destruct unlockedSkills; repeat split; reflexivity. }
  destruct H as (Hp & Hq & Hh & Hm & Hl & Ht).
  repeat split; auto.
  - unfold isBattleOver, isPlayerDefeated, isMonsterDefeated.
    rewrite Hp, Hh. intros H. apply orb_true_iff in H as [H|H];
      apply Z.leb_le in H; auto.
  - unfold isBattleOver, isPlayerDefeated, isMonsterDefeated.
    rewrite Hp, Hh. intros [H|H]; apply Z.leb_le in H; rewrite H;
      auto using orb_true_r.
Qed.

(** ** Leaving *)

Lemma fire_due_location (t : Z) (pending : list (Z * Callback)) (st : Page) :
  location st <> None -> location (fire_due t pending st) <> None.
Proof.
  apply (fire_due_keeps (fun st => location st <> None)); [auto|].
  intros cb st'. apply run_location.
Qed.

Lemma fire_due_cons (t due : Z) (cb : Callback) (rest : list (Z * Callback))
  (st : Page) :
  due <= t ->
  fire_due t ((due, cb) :: rest) st
  = fire_due t rest
      (run cb {| render := render st; now := due; timers := rest;
                 location := location st |}).
Proof.
  intros H. cbn [fire_due]. destruct (Z.leb_spec due t); [reflexivity | lia].
Qed.

(** The navigation that [handleRun] schedules is reached: whatever is
    queued before it is due no later. *)
Lemma fire_due_navigate (t due : Z) (path : string)
  (q : list (Z * Callback)) (st : Page) :
  due <= t ->
  location (fire_due t (enqueue due (call_navigate path) q) st) <> None.
Proof.
  intros Hdue. revert st.
  induction q as [|[d c] q IH]; intros st; cbn [enqueue].
  - rewrite fire_due_cons by exact Hdue. cbn [fire_due run navigate location].
    discriminate.
  - destruct (Z.leb_spec d due).
    + rewrite fire_due_cons by lia. apply IH.
    + rewrite fire_due_cons by exact Hdue.
      apply fire_due_location. cbn [run navigate location]. discriminate.
Qed.

(** X26. Running always gets away: whatever the state of the page and
    whatever is pending, a second and a half after [handleRun] the page has
    been left; and [handleRun] itself touches no hit points and no mana. *)
Theorem handleRun_leaves (st : Page) :
  location (elapse 1500 (handleRun st)) <> None
  /\ playerHP (render (handleRun st)) = playerHP (render st)
  /\ playerMP (render (handleRun st)) = playerMP (render st)
  /\ monsterHP (render (handleRun st)) = monsterHP (render st).
Proof.
  split.
  - unfold elapse, handleRun, setTimeout. cbn [now timers location].
    destruct (addToCombatLog_frame "You fled from battle!" st)
      as (-> & -> & _).
    apply fire_due_navigate. lia.
  - unfold handleRun, setTimeout. cbn [render].
    destruct (addToCombatLog_frame "You fled from battle!" st)
      as (_ & _ & _ & -> & -> & ->).
    auto.
Qed.

Lemma step_left (st : Page) (a : Action) :
  location st <> None ->
  render (step st a) = render st /\ location (step st a) <> None.
Proof.
  intros Hl. unfold step.
  destruct a; (destruct (location st) eqn:El; [|contradiction]); auto;
    try (split; [reflexivity | congruence]).
  cbn [handle]. unfold elapse. cbn [render location].
  apply (fire_due_keeps
           (fun st' => render st' = render st /\ location st' <> None)).
  - intros st' n ts H. exact H.
  - intros [closure|path] st' [Hr Hl']; simpl.
    + rewrite monsterAttack_unmounted by exact Hl'. auto.
    + split; [exact Hr | discriminate].
  - split; [reflexivity | congruence].
Qed.

(** X27. Once the page has been left, nothing that is clicked and nothing
    that still fires changes its state: a counter-attack that was pending
    at the time of leaving lands nowhere. *)
Theorem left_page_is_frozen (st : Page) (l : list Action) :
  location st <> None ->
  render (session st l) = render st.
Proof.
  revert st. induction l as [|a l IH]; intros st Hl; [reflexivity|].
  destruct (step_left st a Hl) as [Hr Hl'].
  change (session st (a :: l)) with (session (step st a) l).
  rewrite (IH _ Hl'). exact Hr.
Qed.

(** ** Two attacks within the second *)

Lemma offered_attack (r : Render) (m : Monster.t) :
  isLoading r = false -> currentMonster r = Some m -> menuState r = main ->
  0 < playerHP r -> 0 < monsterHP r ->
  offered r Attack = true.
Proof.
  intros Hload Hm Hmenu Hp Hh. unfold offered, isBattleOver, isPlayerDefeated,
    isMonsterDefeated.
  rewrite Hload, Hm, Hmenu.
  destruct (Z.leb_spec (playerHP r) 0); [lia|].
  destruct (Z.leb_spec (monsterHP r) 0); [lia|].
  reflexivity.
Qed.

(** An attack the monster survives, in full: the log and the monster's hit
    points change, a counter-attack closing over the render of the click is
    queued, and every other cell is as it was. *)
Lemma handleAttack_survived (st : Page) (m : Monster.t) (u : User.t) :
  location st = None ->
  currentMonster (render st) = Some m ->
  user (render st) = Some u ->
  attackDamage u m < monsterHP (render st) ->
  exists log',
    handleAttack st
    = {| render :=
           {| user := user (render st);
              currentMonster := currentMonster (render st);
              playerHP := playerHP (render st);
              playerMP := playerMP (render st);
              monsterHP := monsterHP (render st) - attackDamage u m;
              combatLog := log';
              menuState := menuState (render st);
              playerSkills := playerSkills (render st);
              isLoading := isLoading (render st) |};
         now := now st;
         timers := enqueue (now st + 1000) (call_monsterAttack (render st))
                     (timers st);
         location := None |}.
Proof.
  intros Hl Hm Hu Halive. unfold handleAttack. rewrite Hm, Hu.
  replace (Z.max 0 (monsterHP (render st) - attackDamage u m))
    with (monsterHP (render st) - attackDamage u m) by lia.
  destruct (Z.leb_spec (monsterHP (render st) - attackDamage u m) 0); [lia|].
  unfold addToCombatLog. rewrite (setState_mounted _ st) by exact Hl.
  rewrite setState_mounted by reflexivity.
  unfold setTimeout, setCombatLog, setMonsterHP.
  cbn [render now timers location user currentMonster playerHP playerMP
    monsterHP combatLog menuState playerSkills isLoading].
  rewrite ?Hm, ?Hu. eexists. reflexivity.
Qed.

(** X28. Two attacks within the same second cost the player one
    counter-attack, not two. Both counter-attacks are queued, but each was
    scheduled with the [playerHP] of the render it was clicked in, and when
    they fire each sets [playerHP] to that value less the damage: the
    second overwrites the first with the same number. *)
Theorem double_attack_single_counter (st : Page) (m : Monster.t) (u : User.t) :
  location st = None ->
  timers st = [] ->
  isLoading (render st) = false ->
  menuState (render st) = main ->
  currentMonster (render st) = Some m ->
  user (render st) = Some u ->
  0 < playerHP (render st) ->
  2 * attackDamage u m < monsterHP (render st) ->
  length (timers (session st [Attack; Attack])) = 2%nat
  /\ playerHP (render (session st [Attack; Attack]))
     = playerHP (render st)
  /\ playerHP (render (session st [Attack; Attack; Wait 1000]))
     = Z.max 0 (playerHP (render st) - counterDamage u m).
Proof.
  intros Hl Ht Hload Hmenu Hm Hu Hp Hh.
  destruct (damage_floor_attack u m) as [Hd _].
  destruct (handleAttack_survived st m u Hl Hm Hu ltac:(lia)) as [log1 H1].
  assert (Hs1 : step st Attack = handleAttack st).
  { unfold step. rewrite Hl.
    rewrite (offered_attack (render st) m) by (auto; lia). reflexivity. }
  set (st1 := handleAttack st) in *.
  assert (Hl1 : location st1 = None) by (rewrite H1; reflexivity).
  assert (Hr1 : user (render st1) = Some u
                /\ currentMonster (render st1) = Some m
                /\ playerHP (render st1) = playerHP (render st)
                /\ monsterHP (render st1)
                   = monsterHP (render st) - attackDamage u m
                /\ menuState (render st1) = main
                /\ isLoading (render st1) = false
                /\ now st1 = now st
                /\ timers st1
                   = [(now st + 1000, call_monsterAttack (render st))]).
  { rewrite H1. cbn. rewrite Ht. auto 10. }
  destruct Hr1 as (Hu1 & Hm1 & Hp1 & Hh1 & Hmenu1 & Hload1 & Hn1 & Ht1).
  destruct (handleAttack_survived st1 m u Hl1 Hm1 Hu1 ltac:(lia)) as [log2 H2].
  assert (Hs2 : step st1 Attack = handleAttack st1).
  { unfold step. rewrite Hl1.
    rewrite (offered_attack (render st1) m) by (auto; lia). reflexivity. }
  set (st2 := handleAttack st1) in *.
  assert (Ht2 : timers st2
                = [(now st + 1000, call_monsterAttack (render st));
                   (now st + 1000, call_monsterAttack (render st1))]).
  { rewrite H2. cbn [timers]. rewrite Ht1, Hn1. simpl.
    rewrite Z.leb_refl. reflexivity. }
  assert (Hl2 : location st2 = None) by (rewrite H2; reflexivity).
  assert (Hn2 : now st2 = now st) by (rewrite H2; exact Hn1).
  assert (Hp2 : playerHP (render st2) = playerHP (render st))
    by (rewrite H2; exact Hp1).
  unfold session. cbn [foldl]. rewrite Hs1, Hs2.
  split; [rewrite Ht2; reflexivity|]. split; [exact Hp2|].
  unfold step. cbn [handle]. unfold elapse. cbn [render].
  rewrite Ht2, Hn2. cbn [fire_due]. rewrite Z.leb_refl. cbn [run].
  set (p1 := monsterAttack (render st) _).
  destruct (monsterAttack_fires (render st)
              {| render := render st2; now := now st + 1000;
                 timers := [(now st + 1000, call_monsterAttack (render st1))];
                 location := location st2 |} m u Hm Hu Hl2)
    as (_ & _ & _ & Hlp1).
  fold p1 in Hlp1.
  destruct (monsterAttack_fires (render st1)
              {| render := render p1; now := now st + 1000; timers := [];
                 location := location p1 |} m u Hm1 Hu1 Hlp1)
    as (-> & _).
  rewrite Hp1. reflexivity.
Qed.

End Encounter.

Lemma omap_id_Some {A} (l : list A) : omap id (Some <$> l) = l.
Proof. induction l as [|x l IH]; [reflexivity|]. cbn. f_equal. exact IH. Qed.

(** The sample encounter is what the page makes of a hero, a monster and
    the hero's unlock records. *)
Lemma encounter_is_enter (u : User.t) (m : Monster.t) (known : list Skill.t) :
  Sample.encounter u m known
  = Combat.enter (Some u) (Some m) (Some (Some <$> known)).
Proof.
  transitivity (Sample.encounter u m (omap id (Some <$> known)));
    [rewrite omap_id_Some; reflexivity | reflexivity].
Qed.

Lemma combatLog_window_witness :
  (length
     (Combat.combatLog
        (Combat.render
           (Combat.session
              (Sample.encounter (Sample.hero 5 5) (Sample.slime 30 12 3) [])
              [Combat.Attack; Combat.Run; Combat.Wait 1000]))) <= 10)%nat.
Proof.
  apply (combatLog_window
           (Sample.encounter (Sample.hero 5 5) (Sample.slime 30 12 3) [])
           [Combat.Attack; Combat.Run; Combat.Wait 1000]).
  vm_compute. lia.
Defined.

Lemma session_vitals_witness :
  0 <= Combat.playerMP
         (Combat.render
            (Combat.session
               (Sample.encounter (Sample.hero 5 5) (Sample.slime 30 12 3)
                  [Sample.fireball])
               [Combat.OpenSkills; Combat.UseSkill Sample.fireball;
                Combat.Wait 1000]))
  /\ 0 <= Combat.monsterHP
            (Combat.render
               (Combat.session
                  (Sample.encounter (Sample.hero 5 5) (Sample.slime 30 12 3)
                     [Sample.fireball])
                  [Combat.OpenSkills; Combat.UseSkill Sample.fireball;
                   Combat.Wait 1000]))
     <= 30.
Proof.
  apply (session_vitals
           (Sample.encounter (Sample.hero 5 5) (Sample.slime 30 12 3)
              [Sample.fireball])
           [Combat.OpenSkills; Combat.UseSkill Sample.fireball;
            Combat.Wait 1000]);
    vm_compute; discriminate.
Defined.

(** The slime is dead after two attacks; a third click on attack is not
    taken. *)
Lemma battle_over_is_final_witness :
  Combat.step
    (Combat.session
       (Sample.encounter (Sample.hero 5 5) (Sample.slime 30 12 3) [])
       [Combat.Attack; Combat.Attack])
    Combat.Attack
  = Combat.session
      (Sample.encounter (Sample.hero 5 5) (Sample.slime 30 12 3) [])
      [Combat.Attack; Combat.Attack].
Proof.
  apply (battle_over_is_final
           (Combat.session
              (Sample.encounter (Sample.hero 5 5) (Sample.slime 30 12 3) [])
              [Combat.Attack; Combat.Attack])
           Combat.Attack).
  reflexivity.
Defined.

(** Attack, go back at once, and wait out the counter-attack: the hero
    still has 100 hit points. *)
Lemma left_page_is_frozen_witness :
  Combat.playerHP
    (Combat.render
       (Combat.session
          (Combat.session
             (Sample.encounter (Sample.hero 5 5) (Sample.slime 30 12 3) [])
             [Combat.Attack; Combat.GoBack])
          [Combat.Wait 1000; Combat.Attack]))
  = 100.
Proof.
  rewrite (left_page_is_frozen
             (Combat.session
                (Sample.encounter (Sample.hero 5 5) (Sample.slime 30 12 3) [])
                [Combat.Attack; Combat.GoBack])
             [Combat.Wait 1000; Combat.Attack]).
  - reflexivity.
  - vm_compute. discriminate.
Defined.

(** Two attacks for 17 on a slime of 50, a counter of 2 each: the hero is
    at 98, not 96. *)
Lemma double_attack_single_counter_witness :
  length
    (Combat.timers
       (Combat.session
          (Sample.encounter (Sample.hero 5 5) (Sample.slime 50 12 3) [])
          [Combat.Attack; Combat.Attack]))
  = 2%nat
  /\ Combat.playerHP
       (Combat.render
          (Combat.session
             (Sample.encounter (Sample.hero 5 5) (Sample.slime 50 12 3) [])
             [Combat.Attack; Combat.Attack; Combat.Wait 1000]))
     = 98.
Proof.
  destruct (double_attack_single_counter
              (Sample.encounter (Sample.hero 5 5) (Sample.slime 50 12 3) [])
              (Sample.slime 50 12 3) (Sample.hero 5 5)
              eq_refl eq_refl eq_refl eq_refl eq_refl eq_refl
              ltac:(reflexivity) ltac:(reflexivity))
    as (Hq & _ & Hp).
  split; [exact Hq | exact Hp].
Defined.
